(** * Token lifecycle of the RTW backend: register, login, logout, refresh

    A shallow embedding of [src/backend/controller/authController.js] and of
    the [RefreshToken] model ([tokens] collection), followed by the theorems
    that settle the claims of the specification about them.

    The handlers are [async] functions over two MongoDB collections and an
    Express response object.  They are embedded in a small monad [JS] that
    threads the collections and the cookies set so far, and that has the three
    ways a JavaScript statement can complete: normally, by [throw], or by
    [return].  Each [await] is one step; a handler runs to completion before
    the next one starts (interleavings of concurrent requests are not
    modelled).

    The routing table of [src/backend/routes/index.js] is embedded as the
    list of its routes, with Express's matching of a request against them. *)

From Stdlib Require Import NArith String Ascii List Bool DecimalString.
From stdpp Require Import base gmap strings list.

Local Open Scope string_scope.
Local Open Scope N_scope.

(** ** Documents and collections *)

(** A document of the [User] model, as the controller writes and reads it.
    [new User({ username, email, name, password })] copies destructured
    fields of [req.body], which may be [undefined]; the stored password is the
    string that [bcrypt.hash] produced. *)
Module User.
Record Doc : Type := mk {
  _id : N;
  username : option string;
  name : option string;
  email : option string;
  password : string
}.
End User.

(** A document of the [RefreshToken] model:
    [Schema({ token: { type: String, required: true },
              userId: { type: ObjectId, ref: "User" } })],
    together with the [_id] every MongoDB document has. *)
Module RefreshToken.
Record Doc : Type := mk {
  _id : N;
  token : string;
  userId : option N
}.
End RefreshToken.

(** The database: both collections in natural (insertion) order, and the
    counter from which fresh [ObjectId]s are drawn. *)
Record World : Type := mkWorld {
  users : list User.Doc;
  tokens : list RefreshToken.Doc;
  nextObjectId : N
}.

(** The payload of a token, [{ _id: user._id }]. *)
Record Payload : Type := mkPayload { _id : N }.

(** ** The environment of one request *)

(** The awaited calls that reach the database. *)
Inductive Call : Type :=
| ExistsEmail     (* [User.exists({ email })] *)
| ExistsUsername  (* [User.exists({ username })] *)
| SaveUser        (* [userToRegister.save()] *)
| FindUser        (* [User.findOne(...)] *)
| StoreToken      (* [JWTService.storeRefreshToken(...)] *)
| UpdateToken     (* [RefreshToken.updateOne(...)] *)
| DeleteToken.    (* [RefreshToken.deleteOne(...)] *)

#[global] Instance Call_eq_dec : EqDecision Call.
Proof. solve_decision. Defined.

(** What the handler cannot control: the clock read by the token codec and
    which database calls are rejected (store unavailable). *)
Record Env : Type := mkEnv {
  now : N;
  fails : Call -> bool
}.

(** ** Errors, cookies and outcomes *)

Inductive Error : Type :=
| HttpError (status : N) (message : string)
    (* the literal [{ status, message }] *)
| HttpErrorMesasge (status : N) (mesasge : string)
    (* the literal [{ status, mesasge }] of login's unknown-username branch *)
| ValidationError
    (* the [error] of [schema.validate] *)
| MongoError (c : Call)
    (* a rejected database call *)
| IllegalArguments
    (* bcryptjs: [Error("Illegal arguments: ...")] *)
| TypeError
    (* reading a property of [null] or [undefined] *)
| OtherError (what : string).

Inductive CookieOp : Type :=
| SetCookie (cname value : string) (maxAge : N) (httpOnly : bool)
    (* [res.cookie(name, value, { maxAge, httpOnly })] *)
| ClearCookie (cname : string).
    (* [res.clearCookie(name)] *)

(** A request: the parsed JSON body and the cookies, both objects with string
    values (a body field that is not a string fails every [Joi.string()] and
    is not modelled). *)
Record Request : Type := mkRequest {
  body : gmap string string;
  cookies : gmap string string
}.

(** ** The password pattern

    [/^(?=.*[a-z])(?=.*[A-Z])(?=.*\d)(?=.*[@.#$!%*?&^])[A-Za-z\d@.#$!%*?&]{8,15}$/] *)

Definition between (lo hi : N) (c : ascii) : bool :=
  (lo <=? N_of_ascii c) && (N_of_ascii c <=? hi).

Definition is_lower : ascii -> bool := between 97 122.
Definition is_upper : ascii -> bool := between 65 90.
Definition is_digit : ascii -> bool := between 48 57.

Definition one_of (cs : string) (c : ascii) : bool :=
  existsb (Ascii.eqb c) (list_ascii_of_string cs).

(** The set of the fourth lookahead, [[@.#$!%*?&^]]. *)
Definition is_lookahead_special : ascii -> bool := one_of "@.#$!%*?&^".

(** The class that every character must belong to, [[A-Za-z\d@.#$!%*?&]]. *)
Definition in_password_class (c : ascii) : bool :=
  is_upper c || is_lower c || is_digit c || one_of "@.#$!%*?&" c.

Definition passwordPattern (s : string) : bool :=
  let cs := list_ascii_of_string s in
  existsb is_lower cs && existsb is_upper cs && existsb is_digit cs
  && existsb is_lookahead_special cs
  && forallb in_password_class cs
  && (8 <=? N.of_nat (List.length cs)) && (N.of_nat (List.length cs) <=? 15).

(** ** Joi *)

(** [Joi.string()] with optional [.min(n)], [.max(n)] and a further test
    ([.email()], [.pattern(re)]); the empty string is not a valid
    [Joi.string()].  Lengths are those of the Rocq string, one character per
    byte. *)
Definition joi_string (min max : option N) (test : string -> bool) (v : string) : bool :=
  negb (String.eqb v "")
  && from_option (fun n => n <=? N.of_nat (String.length v)) true min
  && from_option (fun n => N.of_nat (String.length v) <=? n) true max
  && test v.

(** A key with [.required()]: present and valid. *)
Definition joi_required (rule : string -> bool) (v : option string) : bool :=
  from_option rule false v.

(** A key without [.required()]: valid when present. *)
Definition joi_optional (rule : string -> bool) (v : option string) : bool :=
  from_option rule true v.

(** [Joi.object(keys)] rejects keys it does not list. *)
Definition joi_known_keys (keys : list string) (b : gmap string string) : bool :=
  bool_decide (dom b ⊆ (list_to_set keys : gset string)).

Definition any_string (_ : string) : bool := true.

(** ** Mongoose queries on a collection *)

(** [Model.findOne(filter)] resolves to the first match or [null]. *)
Definition findOne {A} (filter : A -> bool) (l : list A) : option A :=
  List.find filter l.

(** Replace the first match, if there is one. *)
Fixpoint update_first {A} (filter : A -> bool) (f : A -> A) (l : list A)
    : option (list A) :=
  match l with
  | [] => None
  | d :: l' =>
      if filter d then Some (f d :: l')
      else cons d <$> update_first filter f l'
  end.

(** [Model.deleteOne(filter)] removes the first match; no match is not an
    error. *)
Fixpoint deleteOne {A} (filter : A -> bool) (l : list A) : list A :=
  match l with
  | [] => []
  | d :: l' => if filter d then l' else d :: deleteOne filter l'
  end.

Definition set_token (t : string) (d : RefreshToken.Doc) : RefreshToken.Doc :=
  RefreshToken.mk (RefreshToken._id d) t (RefreshToken.userId d).

(** [RefreshToken.updateOne({ _id: id }, { token: t }, { upsert })]: set the
    token of the document with that [_id]; without a match, insert
    [{ _id: id, token: t }] when [upsert] is set and do nothing otherwise. *)
Definition updateOne (id : N) (t : string) (upsert : bool) (l : list RefreshToken.Doc)
    : list RefreshToken.Doc :=
  match update_first (fun d => RefreshToken._id d =? id) (set_token t) l with
  | Some l' => l'
  | None => if upsert then l ++ [RefreshToken.mk id t None] else l
  end.

(** What [Model.findOne(filter)] evaluates to before it is awaited: a Query
    object.  It is run by [await] (or [.then], [.exec]) only. *)
Record Query (A : Type) : Type := mkQuery { exec : World -> option A }.
Arguments mkQuery {A} _.
Arguments exec {A} _ _.

(** JavaScript truthiness of an object reference: every object is truthy. *)
Definition truthy_object {A} (q : Query A) : bool := true.

(** JavaScript truthiness of a value that is a document or [null]. *)
Definition truthy {A} (v : option A) : bool := bool_decide (is_Some v).

(** ** Requests as computations *)

Section Handler.

(** The type of the response projection (an instance of [dto/user]). *)
Variable D : Type.

(** The JSON body [{ user, auth }]. *)
Record AuthJson : Type := mkJson { user : option D; auth : bool }.

(** How a handler ends. *)
Inductive Outcome : Type :=
| Responded (status : N) (json : AuthJson)
    (* [res.status(status).json(json)] *)
| NextCalled (e : Error)
    (* [next(e)]: the error middleware takes over *)
| Rejected (e : Error)
    (* an exception left the handler: its promise rejects *)
| NoResponse.

Record St : Type := mkSt { st_world : World; st_cookies : list CookieOp }.

Inductive Completion (A : Type) : Type :=
| Normal (a : A)
| Throw (e : Error)
| Return (o : Outcome).
Arguments Normal {A} _.
Arguments Throw {A} _.
Arguments Return {A} _.

Definition JS (A : Type) : Type := St -> Completion A * St.

Definition JS_ret {A} (a : A) : JS A := fun s => (Normal a, s).

Definition JS_bind {A B} (k : A -> JS B) (m : JS A) : JS B := fun s =>
  match m s with
  | (Normal a, s') => k a s'
  | (Throw e, s') => (Throw e, s')
  | (Return o, s') => (Return o, s')
  end.

Definition throw {A} (e : Error) : JS A := fun s => (Throw e, s).

(** [try { m } catch (e) { h e }] *)
Definition try_catch {A} (m : JS A) (h : Error -> JS A) : JS A := fun s =>
  match m s with
  | (Throw e, s') => h e s'
  | r => r
  end.

(** [return next(e)] *)
Definition next {A} (e : Error) : JS A := fun s => (Return (NextCalled e), s).

(** [return res.status(status).json(json)] *)
Definition respond {A} (status : N) (json : AuthJson) : JS A :=
  fun s => (Return (Responded status json), s).

Definition res_cookie (cname value : string) (maxAge : N) (httpOnly : bool)
    : JS unit := fun s =>
  (Normal tt,
   mkSt (st_world s) (st_cookies s ++ [SetCookie cname value maxAge httpOnly])).

Definition res_clearCookie (cname : string) : JS unit := fun s =>
  (Normal tt, mkSt (st_world s) (st_cookies s ++ [ClearCookie cname])).

(** [await] of a database call: rejected when the environment says so,
    otherwise it reads and writes the collections. *)
Definition await (env : Env) (c : Call) {A} (op : World -> A * World) : JS A :=
  fun s =>
    if fails env c then (Throw (MongoError c), s)
    else let (a, w) := op (st_world s) in (Normal a, mkSt w (st_cookies s)).

(** [if (error) { return next(error); }] *)
Definition return_next_if (error : option Error) : JS unit :=
  match error with
  | Some e => next e
  | None => JS_ret tt
  end.

(** What a request leaves behind. *)
Record Result : Type := mkResult {
  r_world : World;
  r_cookies : list CookieOp;
  r_outcome : Outcome
}.

Definition run (h : JS unit) (w : World) : Result :=
  match h (mkSt w []) with
  | (Normal _, s) => mkResult (st_world s) (st_cookies s) NoResponse
  | (Throw e, s) => mkResult (st_world s) (st_cookies s) (Rejected e)
  | (Return o, s) => mkResult (st_world s) (st_cookies s) o
  end.

End Handler.

Arguments mkJson {D} _ _.
Arguments user {D} _.
Arguments auth {D} _.
Arguments Responded {D} _ _.
Arguments NextCalled {D} _.
Arguments Rejected {D} _.
Arguments NoResponse {D}.
Arguments Normal {D A} _.
Arguments Throw {D A} _.
Arguments Return {D A} _.
Arguments JS_ret {D A} _ _.
Arguments JS_bind {D A B} _ _ _.
Arguments throw {D A} _ _.
Arguments try_catch {D A} _ _ _.
Arguments next {D A} _ _.
Arguments respond {D A} _ _ _.
Arguments res_cookie {D} _ _ _ _ _.
Arguments res_clearCookie {D} _ _.
Arguments await {D} _ _ {A} _ _.
Arguments return_next_if {D} _ _.
Arguments mkResult {D} _ _ _.
Arguments r_world {D} _.
Arguments r_cookies {D} _.
Arguments r_outcome {D} _.
Arguments run {D} _ _.

#[global] Instance JS_mret D : MRet (JS D) := @JS_ret D.
#[global] Instance JS_mbind D : MBind (JS D) := @JS_bind D.

(** ** What the controller imports and [src/] does not contain *)

Class Imports : Type := {
  (** [dto/user]: [new userDTO(user)] receives a document or [null] and may
      throw. *)
  DTO : Type;
  userDTO : option User.Doc -> Error + DTO;
  (** [service/JWTService]: sign with a payload, an expiry and the clock;
      verify with the clock ([None]: it throws); store a refresh token for a
      user ([inl]: it rejects). *)
  signAccessToken : Payload -> string -> N -> string;
  signRefreshToken : Payload -> string -> N -> string;
  verifyRefreshToken : N -> option string -> option Payload;
  storeRefreshToken : Env -> list RefreshToken.Doc -> string -> N -> Error + list RefreshToken.Doc;
  (** [bcryptjs] on strings, and Joi's [.email()] test. *)
  bcrypt_hash_string : string -> N -> string;
  bcrypt_compare_string : string -> string -> bool;
  isEmail : string -> bool;
  (** How a filter key whose value is [undefined] reaches MongoDB: dropped
      from the filter ([true]) or sent as [null] ([false]). *)
  ignoreUndefined : bool
}.

(** ** The handlers *)

Section AuthController.

Context `{Imports}.

(** The filter key [{ k: q }] against the value [v] of field [k]. *)
Definition key_matches (q : option string) (v : option string) : bool :=
  match q with
  | Some s => bool_decide (v = Some s)
  | None => ignoreUndefined || bool_decide (v = None)
  end.

(** *** Calls the handlers make *)

(** [User.exists(filter)] resolves to [{ _id }] of the first match or to
    [null]. *)
Definition User_exists (filter : User.Doc -> bool) (w : World)
    : option N * World :=
  (User._id <$> findOne filter (users w), w).

Definition User_findOne (filter : User.Doc -> bool) (w : World)
    : option User.Doc * World :=
  (findOne filter (users w), w).

(** [new User(fields).save()] inserts the document under a fresh [_id] and
    resolves to it. *)
Definition User_save (username name email : option string) (password : string)
    (w : World) : User.Doc * World :=
  let doc := User.mk (nextObjectId w) username name email password in
  (doc, mkWorld (users w ++ [doc]) (tokens w) (nextObjectId w + 1)).

Definition RefreshToken_findOne (id : N) (t : option string) : Query RefreshToken.Doc :=
  mkQuery (fun w =>
    findOne (fun d => (RefreshToken._id d =? id) && key_matches t (Some (RefreshToken.token d)))
            (tokens w)).

Definition on_tokens (f : list RefreshToken.Doc -> list RefreshToken.Doc) (w : World)
    : unit * World :=
  (tt, mkWorld (users w) (f (tokens w)) (nextObjectId w)).

(** [await JWTService.storeRefreshToken(token, userId)] *)
Definition await_storeRefreshToken (env : Env) (t : string) (uid : N) : JS DTO unit :=
  fun s =>
    match storeRefreshToken env (tokens (st_world s)) t uid with
    | inl e => (Throw e, s)
    | inr l =>
        (Normal tt,
         mkSt (mkWorld (users (st_world s)) l (nextObjectId (st_world s)))
              (st_cookies s))
    end.

(** [await bcrypt.hash(s, rounds)]; bcryptjs rejects a non-string [s]. *)
Definition bcrypt_hash (s : option string) (rounds : N) : JS DTO string :=
  match s with
  | Some p => mret (bcrypt_hash_string p rounds)
  | None => throw IllegalArguments
  end.

(** [await bcrypt.compare(s, hash)]; bcryptjs rejects a non-string [s]. *)
Definition bcrypt_compare (s : option string) (hash : string) : JS DTO bool :=
  match s with
  | Some p => mret (bcrypt_compare_string p hash)
  | None => throw IllegalArguments
  end.

(** [new userDTO(user)] *)
Definition new_userDTO (u : option User.Doc) : JS DTO DTO :=
  match userDTO u with
  | inl e => throw e
  | inr dto => mret dto
  end.

(** [JWTService.verifyRefreshToken(token)._id] *)
Definition verified_id (env : Env) (t : option string) : JS DTO N :=
  match verifyRefreshToken (now env) t with
  | Some payload => mret (_id payload)
  | None => throw (OtherError "JsonWebTokenError")
  end.

(** *** The schemas *)

Definition userRegisterSchema (b : gmap string string) : option Error :=
  if joi_known_keys ["username"; "name"; "email"; "password"; "confirmPassword"] b
     && joi_required (joi_string (Some 3) (Some 50) any_string) (b !! "username")
     && joi_required (joi_string None (Some 30) any_string) (b !! "name")
     && joi_required (joi_string None None isEmail) (b !! "email")
     && joi_required (joi_string None None passwordPattern) (b !! "password")
     && joi_optional (fun v => bool_decide (b !! "password" = Some v))
                     (b !! "confirmPassword")
  then None else Some ValidationError.

Definition userLoginSchema (b : gmap string string) : option Error :=
  if joi_known_keys ["username"; "password"] b
     && joi_required (joi_string (Some 3) (Some 30) any_string) (b !! "username")
     && joi_optional (joi_string None None passwordPattern) (b !! "password")
  then None else Some ValidationError.

(** *** register *)

(** [accessToken], [refreshToken] and [user] are declared before the second
    [try] and assigned in it: here they are its result. *)
Definition register_body (env : Env) (req : Request) : JS DTO unit :=
  return_next_if (userRegisterSchema (body req));;
  let username := body req !! "username" in
  let name := body req !! "name" in
  let email := body req !! "email" in
  let password := body req !! "password" in
  try_catch
    (emailInUse ← await env ExistsEmail
       (User_exists (fun d => key_matches email (User.email d)));
     usernameInUse ← await env ExistsUsername
       (User_exists (fun d => key_matches username (User.username d)));
     if truthy emailInUse then
       next (HttpError 409 "Email already Register, use another email!")
     else if truthy usernameInUse then
       next (HttpError 409 "Username is not available , choose another username")
     else mret tt)
    (fun error => next error);;
  hashPassword ← bcrypt_hash password 10;
  '(user, accessToken, refreshToken) ← try_catch
    (user ← await env SaveUser (User_save username name email hashPassword);
     let accessToken := signAccessToken (mkPayload (User._id user)) "30m" (now env) in
     let refreshToken := signRefreshToken (mkPayload (User._id user)) "60m" (now env) in
     mret (user, accessToken, refreshToken))
    (fun error => next error);
  await_storeRefreshToken env refreshToken (User._id user);;
  res_cookie "accessToken" accessToken (1000 * 60 * 60 * 24) true;;
  res_cookie "refreshToken" refreshToken (1000 * 60 * 60 * 24) true;;
  userDto ← new_userDTO (Some user);
  respond 201 (mkJson (Some userDto) true).

Definition register (env : Env) (w : World) (req : Request) : Result DTO :=
  run (register_body env req) w.

(** *** login *)

Definition login_body (env : Env) (req : Request) : JS DTO unit :=
  return_next_if (userLoginSchema (body req));;
  let username := body req !! "username" in
  let password := body req !! "password" in
  user ← try_catch
    (user ← await env FindUser
       (User_findOne (fun d => key_matches username (User.username d)));
     match user with
     | None => next (HttpErrorMesasge 401 "Invalid username")
     | Some user =>
         match_ ← bcrypt_compare password (User.password user);
         if negb match_ then next (HttpError 401 "Invalid password")
         else mret user
     end)
    (fun error => next error);
  let accessToken := signAccessToken (mkPayload (User._id user)) "30m" (now env) in
  let refreshToken := signRefreshToken (mkPayload (User._id user)) "60m" (now env) in
  try_catch
    (await env UpdateToken
       (on_tokens (updateOne (User._id user) refreshToken true)))
    (fun error => next error);;
  res_cookie "accessToken" accessToken (1000 * 60 * 60 * 24) true;;
  res_cookie "refreshToken" refreshToken (1000 * 60 * 60 * 24) true;;
  userDto ← new_userDTO (Some user);
  respond 200 (mkJson (Some userDto) true).

Definition login (env : Env) (w : World) (req : Request) : Result DTO :=
  run (login_body env req) w.

(** *** logout *)

(** The response is the last statement of the handler, which ends there. *)
Definition logout_body (env : Env) (req : Request) : JS DTO unit :=
  let refreshToken := cookies req !! "refreshToken" in
  try_catch
    (await env DeleteToken
       (on_tokens (deleteOne (fun d => key_matches refreshToken (Some (RefreshToken.token d))))))
    (fun error => next error);;
  res_clearCookie "accessToken";;
  res_clearCookie "refreshToken";;
  respond 200 (mkJson None false).

Definition logout (env : Env) (w : World) (req : Request) : Result DTO :=
  run (logout_body env req) w.

(** *** refresh *)

(** [RefreshToken.findOne] is called without [await] (line 234): [match] is
    bound to the Query object and tested as such. *)
Definition refresh_body (env : Env) (req : Request) : JS DTO unit :=
  let orignalRefreshToken := cookies req !! "refreshToken" in
  id ← try_catch
    (verified_id env orignalRefreshToken)
    (fun e => next (HttpError 401 "unauthorized"));
  try_catch
    (let match_ := RefreshToken_findOne id orignalRefreshToken in
     if negb (truthy_object match_) then
       next (HttpError 401 "unauthorized")
     else mret tt)
    (fun e => next e);;
  try_catch
    (let accessToken := signAccessToken (mkPayload id) "30m" (now env) in
     let refreshToken := signRefreshToken (mkPayload id) "60m" (now env) in
     await env UpdateToken
       (on_tokens (updateOne id refreshToken false));;
     res_cookie "accessToken" accessToken (1000 * 60 * 60 * 24) true;;
     res_cookie "refreshToken" refreshToken (1000 * 60 * 6024) true)
    (fun e => next e);;
  user ← await env FindUser
    (User_findOne (fun d => User._id d =? id));
  userDto ← new_userDTO user;
  respond 200 (mkJson (Some userDto) true).

Definition refresh (env : Env) (w : World) (req : Request) : Result DTO :=
  run (refresh_body env req) w.

End AuthController.

(** ** Sequences of requests *)

(** The four operations, and a sequence of requests served one after the
    other. *)
Inductive Op : Type := Register | Login | Logout | Refresh.

Definition handle `{Imports} (op : Op) : Env -> World -> Request -> Result DTO :=
  match op with
  | Register => register
  | Login => login
  | Logout => logout
  | Refresh => refresh
  end.

Fixpoint handle_all `{Imports} (rs : list (Op * Env * Request)) (w : World) : World :=
  match rs with
  | [] => w
  | (op, env, req) :: rs' => handle_all rs' (r_world (handle op env w req))
  end.

(** ** The imported services, from the specification

    [service/JWTService], [dto/user] and the libraries are not part of
    [src/]; the definitions of this module follow the specification's
    description of them and are what the handlers are run with on concrete
    requests. *)

Module Spec.

(** Modelled from the spec: [projectPublic(UserRecord) -> UserDTO] of
    [dto/user], which is missing; it "strips sensitive fields (password
    hash)".  Constructed from [null] it reads a property of [null]. *)
Record UserDTO : Type := mkDTO {
  dto_id : N;
  dto_username : option string;
  dto_email : option string
}.

Definition userDTO (u : option User.Doc) : Error + UserDTO :=
  match u with
  | Some d => inr (mkDTO (User._id d) (User.username d) (User.email d))
  | None => inl TypeError
  end.

(** Decimal numerals, and the fields of a token, which dots separate. *)
Definition dec (n : N) : string := NilZero.string_of_uint (N.to_uint n).

Definition undec (s : string) : option N :=
  N.of_uint <$> NilZero.uint_of_string s.

Fixpoint split_dot (s : string) : list string :=
  match s with
  | EmptyString => [EmptyString]
  | String c s' =>
      if Ascii.eqb c "." then EmptyString :: split_dot s'
      else match split_dot s' with
           | h :: t => String c h :: t
           | [] => [String c EmptyString]
           end
  end.

(** The two lifetimes the controller asks for. *)
Definition ttl_seconds (ttl : string) : N :=
  if String.eqb ttl "30m" then 30 * 60
  else if String.eqb ttl "60m" then 60 * 60
  else 0.

(** "Secrets for access and refresh are independent". *)
Definition access_secret : N := 7919.
Definition refresh_secret : N := 104729.

Definition signature (secret sub iat exp : N) : N :=
  (secret + 31 * sub + 17 * iat + 13 * exp) mod 65521.

(** Modelled from the spec: the Credential Codec of [service/JWTService],
    which is missing.  A token carries "subject, issued-at, expires-at" and
    a "signature computed over the first three fields" with the secret of
    its purpose. *)
Definition sign (secret : N) (p : Payload) (ttl : string) (iat : N) : string :=
  let exp := iat + ttl_seconds ttl in
  dec (_id p) ++ "." ++ dec iat ++ "." ++ dec exp ++ "."
    ++ dec (signature secret (_id p) iat exp).

Definition signAccessToken := sign access_secret.
Definition signRefreshToken := sign refresh_secret.

(** Modelled from the spec: [verifyRefresh(token) -> subject] "fails ... if
    the signature does not match, the token is malformed, or
    [now > expires-at]". *)
Definition verify (secret : N) (clock : N) (t : option string) : option Payload :=
  t ← t;
  match split_dot t with
  | [sub; iat; exp; sig] =>
      sub ← undec sub; iat ← undec iat; exp ← undec exp; sig ← undec sig;
      if (sig =? signature secret sub iat exp) && (clock <=? exp)
      then Some (mkPayload sub) else None
  | _ => None
  end.

Definition verifyRefreshToken := verify refresh_secret.

(** Modelled from the spec: [upsert(subject, refreshToken)] of the Session
    Store, the missing [JWTService.storeRefreshToken]: it "replaces the
    user's session record or creates one if absent", and an unavailable
    store is "propagated to the caller as a failed operation". *)
Definition storeRefreshToken (env : Env) (l : list RefreshToken.Doc) (t : string) (uid : N)
    : Error + list RefreshToken.Doc :=
  if fails env StoreToken then inl (MongoError StoreToken)
  else inr (match update_first (fun d => RefreshToken._id d =? uid) (set_token t) l with
            | Some l' => l'
            | None => (l ++ [RefreshToken.mk uid t (Some uid)])%list
            end).

(** Stand-ins for bcryptjs and for Joi's [.email()]. *)
Definition bcrypt_hash_string (p : string) (rounds : N) : string :=
  "$2a$" ++ dec rounds ++ "$" ++ p.

Definition bcrypt_compare_string (p hash : string) : bool :=
  String.eqb (bcrypt_hash_string p 10) hash.

Definition isEmail (s : string) : bool :=
  existsb (Ascii.eqb "@") (list_ascii_of_string s).

Definition ignoreUndefined : bool := false.

Definition imports : Imports :=
  Build_Imports UserDTO userDTO signAccessToken signRefreshToken
    verifyRefreshToken storeRefreshToken bcrypt_hash_string
    bcrypt_compare_string isEmail ignoreUndefined.

Definition register := @register imports.
Definition login := @login imports.
Definition logout := @logout imports.
Definition refresh := @refresh imports.

(** The store is up. *)
Definition up (clock : N) : Env := mkEnv clock (fun _ => false).

Definition empty_world : World := mkWorld [] [] 1.

Definition handle_all := @handle_all imports.

End Spec.

(** ** Requests and worlds used in examples *)

Module Scenario.

Definition json (b : gmap string string) : Request := mkRequest b ∅.

Definition with_refresh_cookie (t : string) : Request :=
  mkRequest ∅ {[ "refreshToken" := t ]}.

Definition alice_registration : Request :=
  json {[ "username" := "alice"; "name" := "Alice";
          "email" := "alice@x.com"; "password" := "Passw0rd!" ]}.

Definition alice_login : Request :=
  json {[ "username" := "alice"; "password" := "Passw0rd!" ]}.

(** Alice registers at time 100 and logs in at time 200. *)
Definition registered : World :=
  r_world (Spec.register (Spec.up 100) Spec.empty_world alice_registration).

Definition logged_in : World :=
  r_world (Spec.login (Spec.up 200) registered alice_login).

(** The refresh tokens of those two requests. *)
Definition T0 : string := "1.100.3700.23518".
Definition T1 : string := "1.200.3800.26518".

(** Bob asks for Alice's username under an address of his own. *)
Definition bob_registration : Request :=
  json {[ "username" := "alice"; "name" := "Bob";
          "email" := "bob@x.com"; "password" := "S3cret.pw" ]}.

(** A login request without the password field. *)
Definition alice_no_password : Request := json {[ "username" := "alice" ]}.

(** A well-signed refresh token whose subject, 9, has no user record. *)
Definition T9 : string := "9.200.3800.26766".

(** The session store rejects its writes. *)
Definition store_down (clock : N) : Env :=
  mkEnv clock (fun c => bool_decide (c = StoreToken) || bool_decide (c = UpdateToken)).

End Scenario.

(** ** Predicates used in the statements *)

Definition email_in_use (w : World) (e : string) : Prop :=
  exists d, d ∈ users w /\ User.email d = Some e.

Definition username_in_use (w : World) (u : string) : Prop :=
  exists d, d ∈ users w /\ User.username d = Some u.

(** The [maxAge] of the last [res.cookie(cname, ...)] among the cookie
    operations of a response. *)
Fixpoint maxAge_of (cname : string) (ops : list CookieOp) : option N :=
  match ops with
  | [] => None
  | SetCookie c _ m _ :: ops' =>
      match maxAge_of cname ops' with
      | Some m' => Some m'
      | None => if String.eqb c cname then Some m else None
      end
  | ClearCookie _ :: ops' => maxAge_of cname ops'
  end.

(** The session records of a user: the documents that login and refresh
    address, [{ _id: user._id }]. *)
Definition records_of (uid : N) (l : list RefreshToken.Doc) : list RefreshToken.Doc :=
  List.filter (fun d => RefreshToken._id d =? uid) l.

(** No two session records have the same [_id]. *)
Definition unique_ids (l : list RefreshToken.Doc) : Prop := NoDup (RefreshToken._id <$> l).

(** [JWTService.storeRefreshToken] keeps the [_id]s distinct. *)
Definition store_keeps_unique_ids `{Imports} : Prop :=
  forall env l t uid l',
    unique_ids l -> storeRefreshToken env l t uid = inr l' -> unique_ids l'.

(** A failed operation: the error middleware was called, or the handler's
    promise rejected. *)
Definition failed {D} (o : Outcome D) : Prop :=
  exists e, o = NextCalled e \/ o = Rejected e.

(** ** Further predicates and examples *)

(** No two users share a username, and no two share an email address. *)
Definition unique_users (w : World) : Prop :=
  NoDup (User.username <$> users w) /\ NoDup (User.email <$> users w).

Module Cases.

(** One database call is rejected, the others are served. *)
Definition failing (c : Call) (clock : N) : Env :=
  mkEnv clock (fun c' => bool_decide (c' = c)).

(** A username of 31 characters. *)
Definition long_username : string := "abcdefghijklmnopqrstuvwxyz01234".

Definition long_registration : Request :=
  Scenario.json {[ "username" := long_username; "name" := "Long";
          "email" := "long@x.com"; "password" := "Passw0rd!" ]}.

Definition long_login : Request :=
  Scenario.json {[ "username" := long_username; "password" := "Passw0rd!" ]}.

Definition mallory_login : Request :=
  Scenario.json {[ "username" := "mallory"; "password" := "Passw0rd!" ]}.

Definition alice_wrong_password : Request :=
  Scenario.json {[ "username" := "alice"; "password" := "Wr0ng.pass" ]}.

Definition alice_doc : User.Doc :=
  User.mk 1 (Some "alice") (Some "Alice") (Some "alice@x.com") "$2a$10$Passw0rd!".

Definition alice_dto : Spec.UserDTO :=
  Spec.mkDTO 1 (Some "alice") (Some "alice@x.com").

End Cases.

(** ** The router ([src/backend/routes/index.js]) *)

Module Routes.

(** The request methods a route can be registered for.  ([OPTIONS] is answered
    by the router itself and is not modelled.) *)
Inductive Method : Type := GET | HEAD | POST | PUT | DELETE | PATCH.

#[global] Instance Method_eq_dec : EqDecision Method.
Proof. solve_decision. Defined.

(** The functions the routes name. *)
Inductive Middleware : Type :=
| auth
| authController_register
| authController_login
| authController_logout
| authController_refresh
| blogController_create
| blogController_getAll
| blogController_getById
| blogController_update
| blogController_delete
| commentController_create
| commentController_getById.

#[global] Instance Middleware_eq_dec : EqDecision Middleware.
Proof. solve_decision. Defined.

(** [router.METHOD(path, ...stack)] *)
Record Route : Type := mkRoute {
  route_method : Method;
  route_path : string;
  route_stack : list Middleware
}.

(** The routes, in the order the file registers them. *)
Definition router : list Route := [
  mkRoute POST "/register" [authController_register];
  mkRoute POST "/login" [authController_login];
  mkRoute POST "/logout" [auth; authController_logout];
  mkRoute GET "/refresh" [authController_refresh];
  mkRoute POST "/blog" [auth; blogController_create];
  mkRoute GET "/blog/all" [auth; blogController_getAll];
  mkRoute GET "/blog/:id" [auth; blogController_getById];
  mkRoute PUT "/blog" [auth; blogController_update];
  mkRoute DELETE "/blog/:id" [auth; blogController_delete];
  mkRoute POST "/comment" [auth; commentController_create];
  mkRoute GET "/comment/:id" [auth; commentController_getById]
].

(** Express matches a path segment by segment. *)
Fixpoint split_slash (s : string) : list string :=
  match s with
  | EmptyString => [EmptyString]
  | String c s' =>
      if Ascii.eqb c "/" then EmptyString :: split_slash s'
      else match split_slash s' with
           | h :: t => String c h :: t
           | [] => [String c EmptyString]
           end
  end.

Inductive Segment : Type :=
| Lit (s : string)       (* matched as it is written, ignoring case *)
| Param (pname : string). (* [:name], one or more characters other than [/] *)

Definition segment_of (s : string) : Segment :=
  match s with
  | String ":" pname => Param pname
  | _ => Lit s
  end.

(** The segments of a route path, which starts with [/]. *)
Definition pattern (path : string) : list Segment :=
  segment_of <$> tail (split_slash path).

(** The segments of a request pathname; routing is not strict, so one
    trailing [/] is ignored. *)
Definition strip_trailing_slash (segs : list string) : list string :=
  match reverse segs with
  | EmptyString :: r => reverse r
  | _ => segs
  end.

Definition request_segments (pathname : string) : option (list string) :=
  match split_slash pathname with
  | EmptyString :: segs => Some (strip_trailing_slash segs)
  | _ => None
  end.

Definition lower (c : ascii) : ascii :=
  if is_upper c then ascii_of_N (N_of_ascii c + 32) else c.

Fixpoint lowercase (s : string) : string :=
  match s with
  | EmptyString => EmptyString
  | String c s' => String (lower c) (lowercase s')
  end.

(** The outcome of matching one route path: no match, a match, or a match
    whose parameter [decodeURIComponent] rejects. *)
Inductive Match : Type := NoMatch | Matched | BadParam.

Section Router.

(** Whether [decodeURIComponent] accepts a parameter value. *)
Variable decodable : string -> bool.

Fixpoint match_segments (pat : list Segment) (segs : list string) : Match :=
  match pat, segs with
  | [], [] => Matched
  | Lit s :: pat', x :: segs' =>
      if String.eqb (lowercase s) (lowercase x) then match_segments pat' segs'
      else NoMatch
  | Param _ :: pat', x :: segs' =>
      if String.eqb x "" then NoMatch
      else match match_segments pat' segs' with
           | Matched => if decodable x then Matched else BadParam
           | r => r
           end
  | _, _ => NoMatch
  end.

(** A route registered for [GET] also answers [HEAD]. *)
Definition handles (registered m : Method) : bool :=
  bool_decide (registered = m)
  || (bool_decide (m = HEAD) && bool_decide (registered = GET)).

(** What the router does with a request. *)
Inductive Dispatch : Type :=
| Handled (stack : list Middleware)  (* the stack of the first matching route runs *)
| DecodeError                        (* a parameter could not be decoded: 400 *)
| Unmatched.                         (* no route: the request leaves the router *)

(** The routes are tried in order; after a parameter that cannot be decoded
    no later route matches. *)
Fixpoint dispatch_from (routes : list Route) (m : Method) (segs : list string)
    : Dispatch :=
  match routes with
  | [] => Unmatched
  | r :: routes' =>
      match match_segments (pattern (route_path r)) segs with
      | BadParam => DecodeError
      | Matched =>
          if handles (route_method r) m then Handled (route_stack r)
          else dispatch_from routes' m segs
      | NoMatch => dispatch_from routes' m segs
      end
  end.

Definition dispatch (m : Method) (pathname : string) : Dispatch :=
  match request_segments pathname with
  | Some segs => dispatch_from router m segs
  | None => Unmatched
  end.

End Router.

(** Every parameter value can be decoded. *)
Definition decodes_all (_ : string) : bool := true.

End Routes.

(** * Properties *)

Create HintDb js discriminated.

#[local] Hint Unfold register login logout refresh run
  register_body login_body logout_body refresh_body
  mbind mret JS_mbind JS_mret JS_bind JS_ret try_catch throw next respond
  res_cookie res_clearCookie await return_next_if
  User_exists User_findOne User_save on_tokens await_storeRefreshToken
  bcrypt_hash bcrypt_compare new_userDTO verified_id truthy_object : js.

(** Run a handler symbolically: unfold it and split on every test. *)
Ltac run_handler :=
  autounfold with js; repeat (case_match; simplify_eq/=).

Section Properties.

Context `{Imports}.

Implicit Types (env : Env) (w : World) (req : Request).

(** C4.  A refresh request whose presented token fails verification (bad
    signature, malformed, expired, or no cookie at all) ends in
    [next({ status: 401, message: "unauthorized" })]: the collections are left
    exactly as they were and no cookie is set. *)
Theorem refresh_unverifiable_token_unauthorized env w req :
  verifyRefreshToken (now env) (cookies req !! "refreshToken") = None ->
  refresh env w req = mkResult w [] (NextCalled (HttpError 401 "unauthorized")).
Proof.
  intros Hv.
  unfold refresh, run, refresh_body, mbind, JS_mbind, JS_bind, try_catch, verified_id.
  rewrite Hv. reflexivity.
Qed.

(** C5.  Logout is idempotent in its response.  Whatever the request carries
    as refresh token, and whatever the [tokens] collection holds, logout
    clears both cookies and answers 200 with [{ user: null, auth: false }];
    a second logout with the same request, served on the world the first one
    left, answers the same.  (The store is reachable: a rejected [deleteOne]
    is the separate failure mode of the store.) *)
Theorem logout_twice_succeeds env1 env2 w req :
  fails env1 DeleteToken = false ->
  fails env2 DeleteToken = false ->
  let r1 := logout env1 w req in
  let r2 := logout env2 (r_world r1) req in
  (r_outcome r1 = Responded 200 (mkJson None false)
   /\ r_cookies r1 = [ClearCookie "accessToken"; ClearCookie "refreshToken"])
  /\
  (r_outcome r2 = Responded 200 (mkJson None false)
   /\ r_cookies r2 = [ClearCookie "accessToken"; ClearCookie "refreshToken"]).
Proof.
  intros H1 H2. run_handler; auto.
Qed.

Lemma truthy_exists_iff (q : option string) (field : User.Doc -> option string) w :
  truthy (User._id <$> findOne (fun d => key_matches q (field d)) (users w)) = true
  <-> exists d, d ∈ users w /\ key_matches q (field d) = true.
Proof.
  unfold truthy, findOne. rewrite bool_decide_eq_true.
  induction (users w) as [|d l IH]; simpl.
  - split; [intros [? ?]; discriminate | intros (d & Hd & _); inversion Hd].
  - destruct (key_matches q (field d)) eqn:E; simpl.
    + split; [intros _; exists d; split; [left | done] | eauto].
    + rewrite IH. split.
      * intros (d' & Hd' & Hm). exists d'. split; [by right | done].
      * intros (d' & Hd' & Hm). inversion Hd'; subst; [congruence | eauto].
Qed.

Lemma email_in_use_truthy w e :
  truthy (User._id <$> findOne (fun d => key_matches (Some e) (User.email d)) (users w)) = true
  <-> email_in_use w e.
Proof.
  rewrite truthy_exists_iff. unfold email_in_use, key_matches.
  split; intros (d & Hd & Hm); exists d; split; auto.
  - by apply bool_decide_eq_true in Hm.
  - by apply bool_decide_eq_true.
Qed.

Lemma username_in_use_truthy w u :
  truthy (User._id <$> findOne (fun d => key_matches (Some u) (User.username d)) (users w)) = true
  <-> username_in_use w u.
Proof.
  rewrite truthy_exists_iff. unfold username_in_use, key_matches.
  split; intros (d & Hd & Hm); exists d; split; auto.
  - by apply bool_decide_eq_true in Hm.
  - by apply bool_decide_eq_true.
Qed.

(** C6.  Register, on a body that passes the schema and with both existence
    queries answered: when the email is in use the 409 error is the email one,
    whether or not the username is in use as well; the username error is
    reported only when the email is free.  Nothing is written and no cookie is
    set in either case. *)
Theorem register_reports_email_conflict_first env w req e u :
  userRegisterSchema (body req) = None ->
  body req !! "email" = Some e ->
  body req !! "username" = Some u ->
  fails env ExistsEmail = false ->
  fails env ExistsUsername = false ->
  (email_in_use w e ->
   register env w req =
     mkResult w [] (NextCalled
       (HttpError 409 "Email already Register, use another email!")))
  /\
  (~ email_in_use w e -> username_in_use w u ->
   register env w req =
     mkResult w [] (NextCalled
       (HttpError 409 "Username is not available , choose another username"))).
Proof.
  intros Hv He Hu Hf1 Hf2.
  rewrite <- email_in_use_truthy, <- username_in_use_truthy.
  autounfold with js. rewrite Hv, He, Hu, Hf1, Hf2. simpl.
  split.
  - intros ->. reflexivity.
  - intros Hn ->. apply not_true_is_false in Hn. rewrite Hn. reflexivity.
Qed.

(** C7.  When the write of the refresh token is rejected
    ([JWTService.storeRefreshToken] in register, [RefreshToken.updateOne] in
    login), the request sets no cookie at all and ends as a failed operation:
    login through [next(error)], register by the rejection of the handler
    (its [await] is outside every [try]). *)
Theorem store_write_failure_sets_no_cookie env w req :
  ((forall l t uid, exists e, storeRefreshToken env l t uid = inl e) ->
   r_cookies (register env w req) = [] /\ failed (r_outcome (register env w req)))
  /\
  (fails env UpdateToken = true ->
   r_cookies (login env w req) = [] /\ failed (r_outcome (login env w req))).
Proof.
  unfold failed. split.
  - intros Hst. run_handler; eauto;
      match goal with
      | E : storeRefreshToken ?e ?l ?t ?u = inr _ |- _ =>
          destruct (Hst l t u); congruence
      end.
  - intros Hup. run_handler; eauto.
Qed.

Lemma refresh_cookie_maxAge env w req status json :
  r_outcome (refresh env w req) = Responded status json ->
  maxAge_of "refreshToken" (r_cookies (refresh env w req)) = Some (1000 * 60 * 6024).
Proof.
  revert status json. run_handler; intros; simplify_eq; reflexivity.
Qed.

Lemma login_cookie_maxAge env w req status json :
  r_outcome (login env w req) = Responded status json ->
  maxAge_of "refreshToken" (r_cookies (login env w req)) = Some (1000 * 60 * 60 * 24).
Proof.
  revert status json. run_handler; intros; simplify_eq; reflexivity.
Qed.

(** C8.  The [maxAge] of the [refreshToken] cookie is [1000 * 60 * 6024]
    (361 440 000 ms) when refresh sets it and [1000 * 60 * 60 * 24]
    (86 400 000 ms) when login sets it: the two paths disagree. *)
Theorem refresh_cookie_maxAge_differs_from_login
    env w req env' w' req' status json status' json' :
  r_outcome (refresh env w req) = Responded status json ->
  r_outcome (login env' w' req') = Responded status' json' ->
  exists m m',
    maxAge_of "refreshToken" (r_cookies (refresh env w req)) = Some m
    /\ maxAge_of "refreshToken" (r_cookies (login env' w' req')) = Some m'
    /\ m = 361440000 /\ m' = 86400000 /\ m <> m'.
Proof.
  intros Hr Hl. exists (1000 * 60 * 6024), (1000 * 60 * 60 * 24).
  split; [eapply refresh_cookie_maxAge; eauto|].
  split; [eapply login_cookie_maxAge; eauto|].
  repeat split; try reflexivity. discriminate.
Qed.

Lemma userLoginSchema_username_only (u : string) :
  (3 <= String.length u <= 30)%nat ->
  userLoginSchema {[ "username" := u ]} = None.
Proof.
  intros [Hlo Hhi]. unfold userLoginSchema, joi_known_keys.
  rewrite bool_decide_eq_true_2 by set_solver.
  rewrite lookup_singleton_eq, lookup_singleton_ne by discriminate.
  unfold joi_required, joi_optional, joi_string, any_string. simpl.
  replace (String.eqb u "") with false by (destruct u; [simpl in Hlo; lia | done]).
  replace (3 <=? N.of_nat (String.length u)) with true
    by (symmetry; apply N.leb_le; lia).
  replace (N.of_nat (String.length u) <=? 30) with true
    by (symmetry; apply N.leb_le; lia).
  reflexivity.
Qed.

(** C9.  The login schema does not require [password]: a body with only a
    username of 3 to 30 characters passes it.  A login request without the
    password field never gets a response from the handler, let alone an
    authenticated one: it ends in [next(error)], sets no cookie and writes
    nothing, because [bcrypt.compare(undefined, hash)] throws. *)
Theorem login_without_password_never_authenticates :
  (forall u : string, (3 <= String.length u <= 30)%nat ->
     userLoginSchema {[ "username" := u ]} = None)
  /\
  (forall env w req, body req !! "password" = None ->
     (forall status json, r_outcome (login env w req) <> Responded status json)
     /\ (exists e, r_outcome (login env w req) = NextCalled e)
     /\ r_cookies (login env w req) = []
     /\ r_world (login env w req) = w)
  /\
  (forall hash s, bcrypt_compare None hash s = (Throw IllegalArguments, s)).
Proof.
  split; [exact userLoginSchema_username_only|].
  split; [|reflexivity].
  intros env w req Hp. autounfold with js. rewrite Hp.
  repeat (case_match; simplify_eq/=); repeat split; eauto; discriminate.
Qed.

(** C10.  Refresh with a token that verifies, for a subject without a user
    record: the [null] that [User.findOne] resolves to goes straight into
    [new userDTO(user)], and whatever the constructor does with it decides the
    outcome (its exception rejects the handler; its result is sent with
    status 200).  The handler never answers this case with [next] of an
    unauthorized error. *)
Theorem refresh_passes_absent_user_to_dto env w req payload :
  verifyRefreshToken (now env) (cookies req !! "refreshToken") = Some payload ->
  fails env UpdateToken = false ->
  fails env FindUser = false ->
  (forall d, d ∈ users w -> User._id d <> _id payload) ->
  r_outcome (refresh env w req) =
    match userDTO None with
    | inl e => Rejected e
    | inr dto => Responded 200 (mkJson (Some dto) true)
    end
  /\ (forall e, r_outcome (refresh env w req) <> NextCalled e).
Proof.
  intros Hv Hu Hf Habs.
  assert (Hnone : findOne (fun d => User._id d =? _id payload) (users w) = None).
  { unfold findOne. induction (users w) as [|d l IH]; [reflexivity|]. simpl.
    destruct (N.eqb_spec (User._id d) (_id payload)) as [E|_].
    - exfalso. apply (Habs d); [left | exact E].
    - apply IH. intros d' Hd'. apply Habs. by right. }
  autounfold with js. rewrite Hv, Hu, Hf. simpl. rewrite Hnone.
  destruct (userDTO None); split; try reflexivity; discriminate.
Qed.

(** A token that verifies is enough for refresh to succeed: the session
    record is not looked at. *)
Lemma refresh_verified_token_succeeds env w req payload u dto :
  verifyRefreshToken (now env) (cookies req !! "refreshToken") = Some payload ->
  fails env UpdateToken = false ->
  fails env FindUser = false ->
  findOne (fun d => User._id d =? _id payload) (users w) = Some u ->
  userDTO (Some u) = inr dto ->
  r_outcome (refresh env w req) = Responded 200 (mkJson (Some dto) true).
Proof.
  intros Hv Hu Hf Hfind Hdto.
  autounfold with js. rewrite Hv, Hu, Hf. simpl.
  rewrite Hfind, Hdto. reflexivity.
Qed.

(** Logout deletes the first record whose token is the presented one. *)
Lemma logout_deletes_record env w req t :
  fails env DeleteToken = false ->
  cookies req !! "refreshToken" = Some t ->
  tokens (r_world (logout env w req))
    = deleteOne (fun d => bool_decide (Some (RefreshToken.token d) = Some t)) (tokens w).
Proof.
  intros Hf Hc. autounfold with js. rewrite Hf, Hc. reflexivity.
Qed.

(** The response of refresh does not depend on the content of the [tokens]
    collection. *)
Lemma refresh_ignores_tokens env w req (l : list RefreshToken.Doc) :
  let w' := mkWorld (users w) l (nextObjectId w) in
  r_outcome (refresh env w' req) = r_outcome (refresh env w req)
  /\ r_cookies (refresh env w' req) = r_cookies (refresh env w req).
Proof.
  autounfold with js. simpl.
  repeat (case_match; simplify_eq/=); auto.
Qed.

End Properties.

(** * Session records *)

Section SessionRecords.

Context `{Imports}.

Implicit Types (env : Env) (w : World) (req : Request) (l : list RefreshToken.Doc).

Lemma update_first_ids (filter : RefreshToken.Doc -> bool) t l l' :
  update_first filter (set_token t) l = Some l' ->
  RefreshToken._id <$> l' = RefreshToken._id <$> l.
Proof.
  revert l'. induction l as [|d l IH]; intros l' Hup; simpl in Hup.
  - discriminate.
  - destruct (filter d).
    + injection Hup as <-. reflexivity.
    + destruct (update_first filter (set_token t) l) as [l0|]; simpl in Hup;
        [|discriminate].
      injection Hup as <-. simpl. f_equal. by apply IH.
Qed.

Lemma update_first_no_match {A} (filter : A -> bool) (f : A -> A) (l : list A) :
  update_first filter f l = None -> forall d, d ∈ l -> filter d = false.
Proof.
  induction l as [|d l IH]; intros Hup d' Hd'; [inversion Hd'|].
  simpl in Hup. destruct (filter d) eqn:E; [discriminate|].
  destruct (update_first filter f l); [discriminate|].
  inversion Hd'; subst; auto.
Qed.

Lemma update_first_match {A} (filter : A -> bool) (f : A -> A) (l l' : list A) :
  update_first filter f l = Some l' -> exists d, d ∈ l /\ filter d = true.
Proof.
  revert l'. induction l as [|d l IH]; intros l' Hup; simpl in Hup; [discriminate|].
  destruct (filter d) eqn:E.
  - exists d. split; [left | done].
  - destruct (update_first filter f l) as [l0|]; [|discriminate].
    destruct (IH l0 eq_refl) as (d' & Hd' & Hm). exists d'. split; [by right | done].
Qed.

(** [updateOne] without [upsert] keeps the [_id]s as they are; with
    [upsert] it adds [id] when no document has it. *)
Lemma updateOne_ids id t (upsert : bool) l :
  RefreshToken._id <$> updateOne id t upsert l =
    if upsert && negb (bool_decide (id ∈ RefreshToken._id <$> l))
    then ((RefreshToken._id <$> l) ++ [id])%list
    else RefreshToken._id <$> l.
Proof.
  unfold updateOne.
  destruct (update_first _ _ l) as [l'|] eqn:Hup.
  - rewrite (update_first_ids _ _ _ _ Hup).
    destruct (update_first_match _ _ _ _ Hup) as (d & Hd & Hm).
    apply N.eqb_eq in Hm. subst id.
    rewrite bool_decide_eq_true_2 by (by apply list_elem_of_fmap_2).
    by rewrite andb_false_r.
  - assert (Hnot : id ∉ RefreshToken._id <$> l).
    { intros (d & -> & Hd)%list_elem_of_fmap.
      pose proof (update_first_no_match _ _ _ Hup d Hd) as Hm.
      simpl in Hm. by rewrite N.eqb_refl in Hm. }
    rewrite bool_decide_eq_false_2 by done.
    destruct upsert; simpl; [by rewrite fmap_app | done].
Qed.

Lemma updateOne_unique id t upsert l :
  unique_ids l -> unique_ids (updateOne id t upsert l).
Proof.
  unfold unique_ids. intros Hnd. rewrite updateOne_ids.
  destruct upsert; simpl; [|done].
  case_bool_decide as Hin; simpl; [done|].
  apply NoDup_app. split; [done|]. split; [|apply NoDup_singleton].
  intros x Hx ->%list_elem_of_singleton. contradiction.
Qed.

Lemma deleteOne_sublist {A} (filter : A -> bool) (l : list A) :
  deleteOne filter l `sublist_of` l.
Proof.
  induction l as [|d l IH]; simpl; [done|].
  destruct (filter d); [by apply sublist_cons | by apply sublist_skip].
Qed.

Lemma deleteOne_unique (filter : RefreshToken.Doc -> bool) l :
  unique_ids l -> unique_ids (deleteOne filter l).
Proof.
  unfold unique_ids. intros Hnd. eapply sublist_NoDup; [exact Hnd|].
  apply fmap_sublist, deleteOne_sublist.
Qed.

(** With distinct [_id]s a user has at most one session record. *)
Lemma unique_ids_at_most_one uid l :
  unique_ids l -> (length (records_of uid l) <= 1)%nat.
Proof.
  unfold unique_ids, records_of.
  induction l as [|d l IH]; simpl; intros Hnd; [lia|].
  apply NoDup_cons in Hnd as [Hd Hnd].
  destruct (N.eqb_spec (RefreshToken._id d) uid) as [E|_]; [|auto].
  simpl. replace (List.filter (fun d0 => RefreshToken._id d0 =? uid) l) with (@nil RefreshToken.Doc);
    [simpl; lia|].
  symmetry. clear IH Hnd. induction l as [|d' l IH]; simpl; [done|].
  destruct (N.eqb_spec (RefreshToken._id d') uid) as [E'|_].
  - exfalso. apply Hd. simpl. rewrite E, <- E'. left.
  - apply IH. intros Hin. apply Hd. simpl. by right.
Qed.

Lemma register_unique env w req :
  store_keeps_unique_ids ->
  unique_ids (tokens w) -> unique_ids (tokens (r_world (register env w req))).
Proof.
  intros Hst Hw. run_handler; auto.
  all: eapply Hst; [|eassumption]; exact Hw.
Qed.

Lemma login_unique env w req :
  unique_ids (tokens w) -> unique_ids (tokens (r_world (login env w req))).
Proof. intros Hw. run_handler; auto using updateOne_unique. Qed.

Lemma logout_unique env w req :
  unique_ids (tokens w) -> unique_ids (tokens (r_world (logout env w req))).
Proof. intros Hw. run_handler; auto using deleteOne_unique. Qed.

Lemma refresh_unique env w req :
  unique_ids (tokens w) -> unique_ids (tokens (r_world (refresh env w req))).
Proof. intros Hw. run_handler; auto using updateOne_unique. Qed.

(** At most one session record per user, over every sequence of requests. *)
Lemma at_most_one_record (rs : list (Op * Env * Request)) w uid :
  store_keeps_unique_ids ->
  unique_ids (tokens w) ->
  (length (records_of uid (tokens (handle_all rs w))) <= 1)%nat.
Proof.
  intros Hst. revert w.
  induction rs as [|[[op env] req] rs IH]; intros w Hw; simpl.
  - by apply unique_ids_at_most_one.
  - apply IH. destruct op; simpl;
      auto using register_unique, login_unique, logout_unique, refresh_unique.
Qed.

(** Refresh never changes which [_id]s have a record: it creates none. *)
Lemma refresh_keeps_ids env w req :
  RefreshToken._id <$> tokens (r_world (refresh env w req)) = RefreshToken._id <$> tokens w.
Proof.
  run_handler; auto; rewrite updateOne_ids; reflexivity.
Qed.

Lemma records_of_upsert id t l :
  records_of id (updateOne id t true l) <> [].
Proof.
  unfold updateOne, records_of.
  destruct (update_first _ _ l) as [l'|] eqn:Hup.
  - revert l' Hup. induction l as [|d l IH]; intros l' Hup; simpl in Hup;
      [discriminate|].
    destruct (N.eqb_spec (RefreshToken._id d) id) as [E|E].
    + injection Hup as <-. simpl. rewrite E, N.eqb_refl. discriminate.
    + destruct (update_first _ _ l) as [l0|]; [|discriminate].
      injection Hup as <-. simpl.
      destruct (RefreshToken._id d =? id); [discriminate | by apply IH].
  - rewrite List.filter_app. simpl. rewrite N.eqb_refl.
    intros Happ. apply app_eq_nil in Happ as [_ Habs]. discriminate.
Qed.

(** A successful login leaves the user with exactly one record. *)
Lemma login_leaves_one_record env w req status json :
  unique_ids (tokens w) ->
  r_outcome (login env w req) = Responded status json ->
  exists u,
    findOne (fun d => key_matches (body req !! "username") (User.username d)) (users w)
      = Some u
    /\ length (records_of (User._id u) (tokens (r_world (login env w req)))) = 1%nat.
Proof.
  intros Hw Hout.
  pose proof (login_unique env w req Hw) as Hnd.
  revert Hout Hnd. run_handler; intros Hout Hnd; try discriminate.
  match goal with
  | Hf : findOne _ _ = Some ?u |- _ => exists u; split; [exact Hf|]
  end.
  match goal with
  | |- length (records_of ?i (updateOne ?i ?t true ?l)) = _ =>
      pose proof (unique_ids_at_most_one i _ Hnd) as Hle;
      pose proof (records_of_upsert i t l) as Hne
  end.
  simpl in Hle.
  destruct (records_of _ _) as [|? [|? ?]]; simpl in *; [done | done | lia].
Qed.

End SessionRecords.

Lemma spec_store_keeps_unique_ids : @store_keeps_unique_ids Spec.imports.
Proof.
  intros env l t uid l' Hl. simpl. unfold Spec.storeRefreshToken.
  destruct (fails env StoreToken); [discriminate|].
  intros [= <-].
  destruct (update_first _ _ l) as [l0|] eqn:Hup.
  - unfold unique_ids. by rewrite (update_first_ids _ _ _ _ Hup).
  - unfold unique_ids. rewrite fmap_app. apply NoDup_app.
    split; [done|]. split; [|apply NoDup_singleton].
    intros x (d & -> & Hd)%list_elem_of_fmap Hx%list_elem_of_singleton.
    pose proof (update_first_no_match _ _ _ Hup d Hd) as Hm. simpl in Hm.
    apply N.eqb_neq in Hm. simpl in Hx. congruence.
Qed.

(** With the specification's services, starting from the empty database: at
    most one session record per user after any sequence of requests. *)
Lemma spec_at_most_one_record (rs : list (Op * Env * Request)) uid :
  (length (records_of uid (tokens (Spec.handle_all rs Spec.empty_world))) <= 1)%nat.
Proof.
  apply (@at_most_one_record Spec.imports).
  - exact spec_store_keeps_unique_ids.
  - apply NoDup_nil_2.
Qed.

(** * Running the handlers on the specification's services *)

Import Scenario.

Example passwordPattern_accepts : passwordPattern "Passw0rd!" = true.
Proof. reflexivity. Qed.

(** The caret is in the lookahead's set but not in the class of allowed
    characters. *)
Example passwordPattern_rejects_caret : passwordPattern "Passw0rd^" = false.
Proof. reflexivity. Qed.

Example passwordPattern_rejects_short : passwordPattern "Pw0rd!" = false.
Proof. reflexivity. Qed.

Example register_schema_confirmPassword :
  @userRegisterSchema Spec.imports
    (<[ "confirmPassword" := "Passw0rd?" ]> (body alice_registration))
    = Some ValidationError
  /\ @userRegisterSchema Spec.imports
       (<[ "confirmPassword" := "Passw0rd!" ]> (body alice_registration))
     = None.
Proof. vm_compute. split; reflexivity. Qed.

Example login_schema_unknown_key :
  userLoginSchema (<[ "email" := "alice@x.com" ]> (body alice_login))
    = Some ValidationError.
Proof. vm_compute. reflexivity. Qed.

Example register_alice :
  Spec.register (Spec.up 100) Spec.empty_world alice_registration =
    mkResult
      (mkWorld [User.mk 1 (Some "alice") (Some "Alice") (Some "alice@x.com")
                       "$2a$10$Passw0rd!"]
               [RefreshToken.mk 1 T0 (Some 1)] 2)
      [SetCookie "accessToken" "1.100.1900.34350" 86400000 true;
       SetCookie "refreshToken" T0 86400000 true]
      (Responded 201
         (mkJson (Some (Spec.mkDTO 1 (Some "alice") (Some "alice@x.com"))) true)).
Proof. vm_compute. reflexivity. Qed.

Example login_alice :
  Spec.login (Spec.up 200) registered alice_login =
    mkResult
      (mkWorld (users registered) [RefreshToken.mk 1 T1 (Some 1)] 2)
      [SetCookie "accessToken" "1.200.2000.37350" 86400000 true;
       SetCookie "refreshToken" T1 86400000 true]
      (Responded 200
         (mkJson (Some (Spec.mkDTO 1 (Some "alice") (Some "alice@x.com"))) true)).
Proof. vm_compute. reflexivity. Qed.

Example register_store_down :
  Spec.register (store_down 100) Spec.empty_world alice_registration =
    mkResult
      (mkWorld [User.mk 1 (Some "alice") (Some "Alice") (Some "alice@x.com")
                       "$2a$10$Passw0rd!"] [] 2)
      []
      (Rejected (MongoError StoreToken)).
Proof. vm_compute. reflexivity. Qed.

Example login_store_down :
  Spec.login (store_down 200) registered alice_login =
    mkResult registered [] (NextCalled (MongoError UpdateToken)).
Proof. vm_compute. reflexivity. Qed.

Example refresh_expired_token :
  Spec.refresh (Spec.up 3801) logged_in (with_refresh_cookie T1) =
    mkResult logged_in [] (NextCalled (HttpError 401 "unauthorized")).
Proof. vm_compute. reflexivity. Qed.

Example refresh_access_token_as_refresh_token :
  Spec.refresh (Spec.up 300) logged_in (with_refresh_cookie "1.200.2000.37350") =
    mkResult logged_in [] (NextCalled (HttpError 401 "unauthorized")).
Proof. vm_compute. reflexivity. Qed.

(** ** Instances of the general theorems *)

Lemma refresh_unverifiable_token_witness :
  Spec.verifyRefreshToken 300 (cookies (with_refresh_cookie "forged") !! "refreshToken")
    = None
  /\ Spec.refresh (Spec.up 300) logged_in (with_refresh_cookie "forged")
     = mkResult logged_in [] (NextCalled (HttpError 401 "unauthorized")).
Proof.
  split; [vm_compute; reflexivity|].
  apply (@refresh_unverifiable_token_unauthorized Spec.imports).
  vm_compute. reflexivity.
Defined.

Lemma logout_twice_witness :
  let r1 := Spec.logout (Spec.up 300) logged_in (with_refresh_cookie T1) in
  let r2 := Spec.logout (Spec.up 310) (r_world r1) (with_refresh_cookie T1) in
  (r_outcome r1 = Responded 200 (mkJson None false)
   /\ r_cookies r1 = [ClearCookie "accessToken"; ClearCookie "refreshToken"])
  /\
  (r_outcome r2 = Responded 200 (mkJson None false)
   /\ r_cookies r2 = [ClearCookie "accessToken"; ClearCookie "refreshToken"]).
Proof.
  apply (@logout_twice_succeeds Spec.imports); reflexivity.
Defined.

Lemma register_conflict_witness :
  (email_in_use registered "alice@x.com"
   /\ Spec.register (Spec.up 500) registered alice_registration
      = mkResult registered []
          (NextCalled (HttpError 409 "Email already Register, use another email!")))
  /\
  (~ email_in_use registered "bob@x.com"
   /\ username_in_use registered "alice"
   /\ Spec.register (Spec.up 500) registered bob_registration
      = mkResult registered []
          (NextCalled
             (HttpError 409 "Username is not available , choose another username"))).
Proof.
  assert (Hin : email_in_use registered "alice@x.com").
  { eexists. split; [apply list_elem_of_here | reflexivity]. }
  assert (Hout : ~ email_in_use registered "bob@x.com").
  { intros (d & Hd & He). apply list_elem_of_singleton in Hd. subst d. discriminate He. }
  assert (Hname : username_in_use registered "alice").
  { eexists. split; [apply list_elem_of_here | reflexivity]. }
  split.
  - split; [exact Hin|].
    apply (@register_reports_email_conflict_first Spec.imports
             (Spec.up 500) registered alice_registration "alice@x.com" "alice");
      try (vm_compute; reflexivity). exact Hin.
  - split; [exact Hout|]. split; [exact Hname|].
    apply (@register_reports_email_conflict_first Spec.imports
             (Spec.up 500) registered bob_registration "bob@x.com" "alice");
      try (vm_compute; reflexivity); assumption.
Defined.

Lemma store_write_failure_witness :
  ((forall l t uid, exists e, Spec.storeRefreshToken (store_down 100) l t uid = inl e)
   /\ r_cookies (Spec.register (store_down 100) Spec.empty_world alice_registration) = []
   /\ failed (r_outcome
        (Spec.register (store_down 100) Spec.empty_world alice_registration)))
  /\
  (fails (store_down 200) UpdateToken = true
   /\ r_cookies (Spec.login (store_down 200) registered alice_login) = []
   /\ failed (r_outcome (Spec.login (store_down 200) registered alice_login))).
Proof.
  assert (Hdown : forall clock l t uid,
            exists e, Spec.storeRefreshToken (store_down clock) l t uid = inl e).
  { intros. eexists. reflexivity. }
  split.
  - split; [apply Hdown|].
    apply (@store_write_failure_sets_no_cookie Spec.imports
             (store_down 100) Spec.empty_world alice_registration).
    apply Hdown.
  - split; [reflexivity|].
    apply (@store_write_failure_sets_no_cookie Spec.imports
             (store_down 200) registered alice_login).
    reflexivity.
Defined.

Lemma refresh_cookie_maxAge_witness :
  r_outcome (Spec.refresh (Spec.up 300) logged_in (with_refresh_cookie T1))
    = Responded 200
        (mkJson (Some (Spec.mkDTO 1 (Some "alice") (Some "alice@x.com"))) true)
  /\ r_outcome (Spec.login (Spec.up 200) registered alice_login)
    = Responded 200
        (mkJson (Some (Spec.mkDTO 1 (Some "alice") (Some "alice@x.com"))) true)
  /\ exists m m',
       maxAge_of "refreshToken"
         (r_cookies (Spec.refresh (Spec.up 300) logged_in (with_refresh_cookie T1)))
         = Some m
       /\ maxAge_of "refreshToken"
            (r_cookies (Spec.login (Spec.up 200) registered alice_login))
            = Some m'
       /\ m = 361440000 /\ m' = 86400000 /\ m <> m'.
Proof.
  assert (Hr : r_outcome (Spec.refresh (Spec.up 300) logged_in (with_refresh_cookie T1))
    = Responded 200
        (mkJson (Some (Spec.mkDTO 1 (Some "alice") (Some "alice@x.com"))) true))
    by (vm_compute; reflexivity).
  assert (Hl : r_outcome (Spec.login (Spec.up 200) registered alice_login)
    = Responded 200
        (mkJson (Some (Spec.mkDTO 1 (Some "alice") (Some "alice@x.com"))) true))
    by (vm_compute; reflexivity).
  split; [exact Hr|]. split; [exact Hl|].
  exact (@refresh_cookie_maxAge_differs_from_login Spec.imports
           _ _ _ _ _ _ _ _ _ _ Hr Hl).
Defined.

Lemma login_without_password_witness :
  ((3 <= String.length "alice" <= 30)%nat
   /\ userLoginSchema (body alice_no_password) = None)
  /\
  (body alice_no_password !! "password" = None
   /\ (forall status json,
         r_outcome (Spec.login (Spec.up 200) registered alice_no_password)
           <> Responded status json)
   /\ (exists e,
         r_outcome (Spec.login (Spec.up 200) registered alice_no_password)
           = NextCalled e)
   /\ r_cookies (Spec.login (Spec.up 200) registered alice_no_password) = []
   /\ r_world (Spec.login (Spec.up 200) registered alice_no_password) = registered).
Proof.
  destruct (@login_without_password_never_authenticates Spec.imports)
    as (Hschema & Hlogin & _).
  split.
  - split; [simpl; lia|]. apply (Hschema "alice"). simpl; lia.
  - split; [reflexivity|]. apply Hlogin. reflexivity.
Defined.

Lemma refresh_absent_user_witness :
  Spec.verifyRefreshToken 300 (cookies (with_refresh_cookie T9) !! "refreshToken")
    = Some (mkPayload 9)
  /\ (forall d, d ∈ users registered -> User._id d <> 9)
  /\ r_outcome (Spec.refresh (Spec.up 300) registered (with_refresh_cookie T9))
     = Rejected TypeError
  /\ (forall e,
        r_outcome (Spec.refresh (Spec.up 300) registered (with_refresh_cookie T9))
          <> NextCalled e).
Proof.
  assert (Hv : Spec.verifyRefreshToken 300
                 (cookies (with_refresh_cookie T9) !! "refreshToken")
               = Some (mkPayload 9)) by (vm_compute; reflexivity).
  assert (Habs : forall d, d ∈ users registered -> User._id d <> 9).
  { intros d Hd. apply list_elem_of_singleton in Hd. subst d. discriminate. }
  split; [exact Hv|]. split; [exact Habs|].
  exact (@refresh_passes_absent_user_to_dto Spec.imports
           (Spec.up 300) registered (with_refresh_cookie T9) (mkPayload 9)
           Hv eq_refl eq_refl Habs).
Defined.

(** * Where the code departs from the specification *)

(** C1 (the code departs from the claim).  Alice logs in and gets [T1];
    refresh with [T1] rotates the session record to a new token, so that the
    query of refresh, had it been awaited, finds nothing for [T1].  Presenting
    [T1] again is not answered with 401: refresh succeeds, sets two new
    cookies and rotates the record once more. *)
Theorem refresh_accepts_superseded_token :
  let r1 := Spec.refresh (Spec.up 300) logged_in (with_refresh_cookie T1) in
  let r2 := Spec.refresh (Spec.up 400) (r_world r1) (with_refresh_cookie T1) in
  tokens (r_world r1) = [RefreshToken.mk 1 "1.300.3900.29518" (Some 1)]
  /\ exec (@RefreshToken_findOne Spec.imports 1 (Some T1)) (r_world r1) = None
  /\ r_outcome r2
     = Responded 200
         (mkJson (Some (Spec.mkDTO 1 (Some "alice") (Some "alice@x.com"))) true)
  /\ r_outcome r2 <> NextCalled (HttpError 401 "unauthorized")
  /\ r_cookies r2
     = [SetCookie "accessToken" "1.400.2200.43350" 86400000 true;
        SetCookie "refreshToken" "1.400.4000.32518" 361440000 true]
  /\ tokens (r_world r2) = [RefreshToken.mk 1 "1.400.4000.32518" (Some 1)].
Proof. vm_compute. repeat split; (reflexivity || discriminate). Qed.

(** C3 (the code departs from the claim).  Logout with [T1] deletes Alice's
    session record.  A later refresh with [T1], which still verifies, is not
    answered with 401: it succeeds with status 200 and sets two new cookies. *)
Theorem refresh_after_logout_succeeds :
  let r1 := Spec.logout (Spec.up 300) logged_in (with_refresh_cookie T1) in
  let r2 := Spec.refresh (Spec.up 400) (r_world r1) (with_refresh_cookie T1) in
  tokens logged_in = [RefreshToken.mk 1 T1 (Some 1)]
  /\ tokens (r_world r1) = []
  /\ r_outcome r2
     = Responded 200
         (mkJson (Some (Spec.mkDTO 1 (Some "alice") (Some "alice@x.com"))) true)
  /\ r_outcome r2 <> NextCalled (HttpError 401 "unauthorized")
  /\ r_cookies r2
     = [SetCookie "accessToken" "1.400.2200.43350" 86400000 true;
        SetCookie "refreshToken" "1.400.4000.32518" 361440000 true].
Proof. vm_compute. repeat split; (reflexivity || discriminate). Qed.

(** C2 (the code departs from the claim).  After login Alice has exactly
    one session record; after logout she has none; the refresh that follows
    succeeds and still leaves her with none, where the claim says that a
    refresh leaves exactly one. *)
Theorem refresh_can_leave_no_record :
  let r1 := Spec.logout (Spec.up 250) logged_in (with_refresh_cookie T1) in
  let r2 := Spec.refresh (Spec.up 260) (r_world r1) (with_refresh_cookie T1) in
  length (records_of 1 (tokens logged_in)) = 1%nat
  /\ records_of 1 (tokens (r_world r1)) = []
  /\ r_outcome r2
     = Responded 200
         (mkJson (Some (Spec.mkDTO 1 (Some "alice") (Some "alice@x.com"))) true)
  /\ records_of 1 (tokens (r_world r2)) = [].
Proof. vm_compute. repeat split; (reflexivity || discriminate). Qed.

(** * Further properties of the handlers *)

Section ErrorPaths.

Context `{Imports}.

Implicit Types (env : Env) (w : World) (req : Request) (op : Op).

(** X1.  When a handler hands an error to [next], it has written nothing and
    has neither set nor cleared a cookie: every [next(error)] of the four
    handlers comes before their first write. *)
Theorem next_leaves_no_trace op env w req e :
  r_outcome (handle op env w req) = NextCalled e ->
  r_world (handle op env w req) = w /\ r_cookies (handle op env w req) = [].
Proof.
  destruct w as [us ts n].
  destruct op; simpl; run_handler; intros; simplify_eq; auto.
Qed.

(** X2.  No handler returns without answering: each request ends in a
    response, in [next(error)] or in the rejection of the handler. *)
Theorem handlers_always_answer op env w req :
  r_outcome (handle op env w req) <> NoResponse.
Proof.
  destruct op; simpl; run_handler; discriminate.
Qed.

(** X3.  Login, logout and refresh never write to the [users] collection and
    draw no [ObjectId]. *)
Theorem only_register_writes_users env w req :
  (users (r_world (login env w req)) = users w
   /\ nextObjectId (r_world (login env w req)) = nextObjectId w)
  /\ (users (r_world (logout env w req)) = users w
      /\ nextObjectId (r_world (logout env w req)) = nextObjectId w)
  /\ (users (r_world (refresh env w req)) = users w
      /\ nextObjectId (r_world (refresh env w req)) = nextObjectId w).
Proof.
  repeat split; run_handler; reflexivity.
Qed.

End ErrorPaths.

(** * Schemas *)

Section Schemas.

Context `{Imports}.

Lemma joi_required_inv (rule : string -> bool) (v : option string) :
  joi_required rule v = true -> exists s, v = Some s /\ rule s = true.
Proof. destruct v as [s|]; simpl; [eauto | discriminate]. Qed.

Lemma joi_string_inv (min max : option N) (test : string -> bool) (v : string) :
  joi_string min max test v = true ->
  v <> ""
  /\ (forall n, min = Some n -> n <= N.of_nat (String.length v))
  /\ (forall n, max = Some n -> N.of_nat (String.length v) <= n)
  /\ test v = true.
Proof.
  unfold joi_string. rewrite !andb_true_iff, negb_true_iff.
  intros [[[Hne Hmin] Hmax] Htest]. repeat split; auto.
  - by apply String.eqb_neq.
  - intros n ->. simpl in Hmin. by apply N.leb_le.
  - intros n ->. simpl in Hmax. by apply N.leb_le.
Qed.

Lemma joi_known_keys_inv (keys : list string) (b : gmap string string) k :
  joi_known_keys keys b = true -> is_Some (b !! k) -> k ∈ keys.
Proof.
  unfold joi_known_keys. intros Hsub%bool_decide_eq_true Hk.
  apply elem_of_dom in Hk. apply Hsub in Hk. by apply elem_of_list_to_set in Hk.
Qed.

(** X4.  A body that passes the registration schema has a username of 3 to 50
    characters, a name of 1 to 30, an email that Joi accepts and a password
    that matches the pattern; [confirmPassword], when present, equals the
    password; and it has no key besides these five. *)
Theorem userRegisterSchema_accepts_inv (b : gmap string string) :
  userRegisterSchema b = None ->
  (exists u n e p,
     b !! "username" = Some u /\ b !! "name" = Some n
     /\ b !! "email" = Some e /\ b !! "password" = Some p
     /\ (3 <= String.length u <= 50)%nat
     /\ (1 <= String.length n <= 30)%nat
     /\ isEmail e = true
     /\ passwordPattern p = true
     /\ (b !! "confirmPassword" = None \/ b !! "confirmPassword" = Some p))
  /\ (forall k, is_Some (b !! k) ->
        k ∈ ["username"; "name"; "email"; "password"; "confirmPassword"]).
Proof.
  unfold userRegisterSchema. case_match eqn:Hall; [|discriminate]. intros _.
  rewrite !andb_true_iff in Hall.
  destruct Hall as [[[[[Hkeys Hu] Hn] He] Hp] Hc].
  apply joi_required_inv in Hu as (u & Hu & Hur).
  apply joi_required_inv in Hn as (n & Hn & Hnr).
  apply joi_required_inv in He as (e & He & Her).
  apply joi_required_inv in Hp as (p & Hp & Hpr).
  apply joi_string_inv in Hur as (_ & Hu3 & Hu50 & _).
  apply joi_string_inv in Hnr as (Hn0 & _ & Hn30 & _).
  apply joi_string_inv in Her as (_ & _ & _ & Hmail).
  apply joi_string_inv in Hpr as (_ & _ & _ & Hpat).
  specialize (Hu3 3 eq_refl). specialize (Hu50 50 eq_refl).
  specialize (Hn30 30 eq_refl).
  split; [|intros k; by apply joi_known_keys_inv].
  exists u, n, e, p. repeat split; auto; try lia.
  - destruct n; [done | simpl; lia].
  - destruct (b !! "confirmPassword") as [c|]; [|by left]. right.
    simpl in Hc. apply bool_decide_eq_true in Hc. congruence.
Qed.

(** X5.  A body that passes the login schema has a username of 3 to 30
    characters, a password that matches the pattern if it has one, and no key
    besides these two. *)
Theorem userLoginSchema_accepts_inv (b : gmap string string) :
  userLoginSchema b = None ->
  (exists u, b !! "username" = Some u /\ (3 <= String.length u <= 30)%nat)
  /\ (forall p, b !! "password" = Some p -> passwordPattern p = true)
  /\ (forall k, is_Some (b !! k) -> k = "username" \/ k = "password").
Proof.
  unfold userLoginSchema. case_match eqn:Hall; [|discriminate]. intros _.
  rewrite !andb_true_iff in Hall. destruct Hall as [[Hkeys Hu] Hp].
  apply joi_required_inv in Hu as (u & Hu & Hur).
  apply joi_string_inv in Hur as (_ & Hu3 & Hu30 & _).
  specialize (Hu3 3 eq_refl). specialize (Hu30 30 eq_refl).
  split; [exists u; split; [done | lia]|]. split.
  - intros p Hbp. rewrite Hbp in Hp. simpl in Hp.
    by apply joi_string_inv in Hp as (_ & _ & _ & Hpat).
  - intros k Hk. apply (joi_known_keys_inv _ _ _ Hkeys) in Hk.
    apply elem_of_cons in Hk as [->|Hk]; [by left|].
    apply list_elem_of_singleton in Hk as ->. by right.
Qed.

Lemma userRegisterSchema_required (b : gmap string string) :
  userRegisterSchema b = None ->
  exists u e p,
    b !! "username" = Some u /\ b !! "email" = Some e /\ b !! "password" = Some p.
Proof.
  unfold userRegisterSchema. case_match eqn:Hall; [|discriminate]. intros _.
  rewrite !andb_true_iff in Hall.
  destruct Hall as [[[[[_ Hu] _] He] Hp] _].
  apply joi_required_inv in Hu as (u & Hu & _).
  apply joi_required_inv in He as (e & He & _).
  apply joi_required_inv in Hp as (p & Hp & _). eauto 6.
Qed.

Lemma userRegisterSchema_password (b : gmap string string) :
  userRegisterSchema b = None ->
  exists p, b !! "password" = Some p /\ passwordPattern p = true.
Proof.
  unfold userRegisterSchema. case_match eqn:Hall; [|discriminate]. intros _.
  rewrite !andb_true_iff in Hall.
  destruct Hall as [[[[[_ _] _] _] Hp] _].
  apply joi_required_inv in Hp as (p & Hp & Hpr).
  apply joi_string_inv in Hpr as (_ & _ & _ & Hpat). eauto.
Qed.

End Schemas.

Section RegisterPaths.

Context `{Imports}.

Implicit Types (env : Env) (w : World) (req : Request).

Lemma email_free_falsy w e :
  ~ email_in_use w e ->
  truthy (User._id <$> findOne (fun d => key_matches (Some e) (User.email d)) (users w))
    = false.
Proof. rewrite <- email_in_use_truthy. apply not_true_is_false. Qed.

Lemma username_free_falsy w u :
  ~ username_in_use w u ->
  truthy (User._id <$> findOne (fun d => key_matches (Some u) (User.username d)) (users w))
    = false.
Proof. rewrite <- username_in_use_truthy. apply not_true_is_false. Qed.

(** The state of register when it reaches the write of the refresh token. *)
Lemma register_reaches_store env w req e u p :
  userRegisterSchema (body req) = None ->
  body req !! "email" = Some e ->
  body req !! "username" = Some u ->
  body req !! "password" = Some p ->
  fails env ExistsEmail = false ->
  fails env ExistsUsername = false ->
  fails env SaveUser = false ->
  ~ email_in_use w e ->
  ~ username_in_use w u ->
  let doc := User.mk (nextObjectId w) (Some u) (body req !! "name") (Some e)
               (bcrypt_hash_string p 10) in
  let accessToken := signAccessToken (mkPayload (nextObjectId w)) "30m" (now env) in
  let refreshToken := signRefreshToken (mkPayload (nextObjectId w)) "60m" (now env) in
  register env w req =
    match storeRefreshToken env (tokens w) refreshToken (nextObjectId w) with
    | inl err =>
        mkResult (mkWorld (users w ++ [doc]) (tokens w) (nextObjectId w + 1)) []
          (Rejected err)
    | inr l =>
        let w' := mkWorld (users w ++ [doc]) l (nextObjectId w + 1) in
        let cs := [SetCookie "accessToken" accessToken 86400000 true;
                   SetCookie "refreshToken" refreshToken 86400000 true] in
        match userDTO (Some doc) with
        | inl err => mkResult w' cs (Rejected err)
        | inr dto => mkResult w' cs (Responded 201 (mkJson (Some dto) true))
        end
    end.
Proof.
  intros Hv He Hu Hp Hf1 Hf2 Hf3 Hne Hnu.
  apply email_free_falsy in Hne. apply username_free_falsy in Hnu.
  revert Hne Hnu.
  autounfold with js. rewrite Hv, He, Hu, Hp, Hf1, Hf2, Hf3. simpl.
  intros -> ->. simpl.
  destruct (storeRefreshToken _ _ _ _); [reflexivity|]. simpl.
  destruct (userDTO _); reflexivity.
Qed.


(** X9.  A registration that passes the schema, finds email and username
    free and meets no failure: the user is inserted under a fresh [_id] with
    the bcrypt hash (10 rounds) as password, the refresh token signed for that
    [_id] is handed to [storeRefreshToken], both cookies are set with
    [maxAge] 86 400 000 and [httpOnly], and the answer is 201 with
    [auth: true]. *)
Theorem register_success env w req e u p l dto :
  userRegisterSchema (body req) = None ->
  body req !! "email" = Some e ->
  body req !! "username" = Some u ->
  body req !! "password" = Some p ->
  fails env ExistsEmail = false ->
  fails env ExistsUsername = false ->
  fails env SaveUser = false ->
  ~ email_in_use w e ->
  ~ username_in_use w u ->
  let doc := User.mk (nextObjectId w) (Some u) (body req !! "name") (Some e)
               (bcrypt_hash_string p 10) in
  let accessToken := signAccessToken (mkPayload (nextObjectId w)) "30m" (now env) in
  let refreshToken := signRefreshToken (mkPayload (nextObjectId w)) "60m" (now env) in
  storeRefreshToken env (tokens w) refreshToken (nextObjectId w) = inr l ->
  userDTO (Some doc) = inr dto ->
  register env w req =
    mkResult (mkWorld (users w ++ [doc]) l (nextObjectId w + 1))
      [SetCookie "accessToken" accessToken 86400000 true;
       SetCookie "refreshToken" refreshToken 86400000 true]
      (Responded 201 (mkJson (Some dto) true)).
Proof.
  intros Hv He Hu Hp Hf1 Hf2 Hf3 Hne Hnu doc accessToken refreshToken Hst Hdto.
  rewrite (register_reaches_store env w req e u p) by assumption.
  fold doc refreshToken accessToken. rewrite Hst. simpl. rewrite Hdto. reflexivity.
Qed.

(** X10.  When [storeRefreshToken] rejects in such a registration, the user
    document has already been inserted: the handler rejects, sets no cookie
    and leaves a user without a session record. *)
Theorem register_store_rejection_orphans_user env w req e u p err :
  userRegisterSchema (body req) = None ->
  body req !! "email" = Some e ->
  body req !! "username" = Some u ->
  body req !! "password" = Some p ->
  fails env ExistsEmail = false ->
  fails env ExistsUsername = false ->
  fails env SaveUser = false ->
  ~ email_in_use w e ->
  ~ username_in_use w u ->
  let doc := User.mk (nextObjectId w) (Some u) (body req !! "name") (Some e)
               (bcrypt_hash_string p 10) in
  let refreshToken := signRefreshToken (mkPayload (nextObjectId w)) "60m" (now env) in
  storeRefreshToken env (tokens w) refreshToken (nextObjectId w) = inl err ->
  register env w req =
    mkResult (mkWorld (users w ++ [doc]) (tokens w) (nextObjectId w + 1)) []
      (Rejected err).
Proof.
  intros Hv He Hu Hp Hf1 Hf2 Hf3 Hne Hnu doc refreshToken Hst.
  rewrite (register_reaches_store env w req e u p) by assumption.
  fold doc refreshToken. rewrite Hst. reflexivity.
Qed.

(** X11.  When [userToRegister.save()] rejects, register ends in
    [next(error)] before any token is stored: nothing is written and no
    cookie is set. *)
Theorem register_save_failure env w req e u :
  userRegisterSchema (body req) = None ->
  body req !! "email" = Some e ->
  body req !! "username" = Some u ->
  fails env ExistsEmail = false ->
  fails env ExistsUsername = false ->
  fails env SaveUser = true ->
  ~ email_in_use w e ->
  ~ username_in_use w u ->
  register env w req = mkResult w [] (NextCalled (MongoError SaveUser)).
Proof.
  intros Hv He Hu Hf1 Hf2 Hf3 Hne Hnu.
  apply email_free_falsy in Hne. apply username_free_falsy in Hnu.
  revert Hne Hnu.
  autounfold with js. rewrite Hv, He, Hu, Hf1, Hf2, Hf3. simpl.
  intros -> ->. simpl.
  destruct (userRegisterSchema_password _ Hv) as (p & -> & _). simpl.
  destruct w; reflexivity.
Qed.

(** X12.  Both existence queries are awaited before either result is
    tested: when the username query rejects, register ends in [next] of that
    error, also when the email is in use, and the 409 is not reported. *)
Theorem register_username_query_failure_masks_conflict env w req :
  userRegisterSchema (body req) = None ->
  fails env ExistsEmail = false ->
  fails env ExistsUsername = true ->
  register env w req = mkResult w [] (NextCalled (MongoError ExistsUsername)).
Proof.
  intros Hv Hf1 Hf2. autounfold with js. rewrite Hv, Hf1, Hf2. simpl.
  destruct w; reflexivity.
Qed.

(** X13.  Whatever the request and however it ends, register leaves the
    [users] collection as it was or appends one document to it, whose
    password is the bcrypt hash (10 rounds) of a submitted password that
    matches the pattern; the documents already there are not touched. *)
Theorem register_adds_at_most_one_hashed_user env w req :
  (users (r_world (register env w req)) = users w
   /\ nextObjectId (r_world (register env w req)) = nextObjectId w)
  \/
  (exists p,
     body req !! "password" = Some p
     /\ passwordPattern p = true
     /\ users (r_world (register env w req))
        = (users w ++ [User.mk (nextObjectId w) (body req !! "username")
                               (body req !! "name") (body req !! "email")
                               (bcrypt_hash_string p 10)])%list
     /\ nextObjectId (r_world (register env w req)) = nextObjectId w + 1).
Proof.
  destruct (userRegisterSchema (body req)) eqn:Hv.
  - left. autounfold with js. rewrite Hv. by simpl.
  - destruct (userRegisterSchema_password _ Hv) as (p & Hp & Hpat).
    autounfold with js. rewrite Hv, Hp. simpl.
    repeat (case_match; simplify_eq/=);
      first [ left; split; reflexivity
            | right; exists p; repeat split; (reflexivity || assumption) ].
Qed.

End RegisterPaths.

Section Store.

Implicit Types (l : list RefreshToken.Doc).

Lemma update_first_lookup (id : N) t l l' :
  update_first (fun d => RefreshToken._id d =? id) (set_token t) l = Some l' ->
  exists d, findOne (fun d => RefreshToken._id d =? id) l' = Some d
            /\ RefreshToken.token d = t /\ RefreshToken._id d = id.
Proof.
  revert l'. induction l as [|d l IH]; intros l' Hup; simpl in Hup; [discriminate|].
  destruct (N.eqb_spec (RefreshToken._id d) id) as [E|E].
  - injection Hup as <-. exists (set_token t d). simpl.
    rewrite E, N.eqb_refl. auto.
  - destruct (update_first _ _ l) as [l0|]; [|discriminate].
    injection Hup as <-. destruct (IH l0 eq_refl) as (d' & Hd' & Ht & Hi).
    exists d'. simpl. apply N.eqb_neq in E. rewrite E. auto.
Qed.

Lemma findOne_app {A} (f : A -> bool) (l k : list A) :
  findOne f (l ++ k) = match findOne f l with
                       | Some x => Some x
                       | None => findOne f k
                       end.
Proof.
  unfold findOne. induction l as [|x l IH]; simpl; [done|].
  destruct (f x); [reflexivity | exact IH].
Qed.

Lemma findOne_None {A} (f : A -> bool) (l : list A) :
  (forall x, x ∈ l -> f x = false) -> findOne f l = None.
Proof.
  unfold findOne. induction l as [|x l IH]; intros Hall; simpl; [done|].
  rewrite (Hall x) by left. apply IH. intros y Hy. apply Hall. by right.
Qed.

Lemma updateOne_upsert_lookup (id : N) t l :
  exists d,
    findOne (fun d => RefreshToken._id d =? id) (updateOne id t true l) = Some d
    /\ RefreshToken.token d = t /\ RefreshToken._id d = id.
Proof.
  unfold updateOne.
  destruct (update_first _ _ l) as [l'|] eqn:Hup.
  - by apply update_first_lookup in Hup.
  - exists (RefreshToken.mk id t None).
    rewrite findOne_app, findOne_None
      by exact (update_first_no_match _ _ _ Hup).
    simpl. rewrite N.eqb_refl. auto.
Qed.

Lemma update_first_frame (id id' : N) t l l' :
  id' <> id ->
  update_first (fun d => RefreshToken._id d =? id) (set_token t) l = Some l' ->
  findOne (fun d => RefreshToken._id d =? id') l'
    = findOne (fun d => RefreshToken._id d =? id') l.
Proof.
  intros Hne. revert l'.
  induction l as [|d l IH]; intros l' Hup; simpl in Hup; [discriminate|].
  destruct (N.eqb_spec (RefreshToken._id d) id) as [E|E].
  - injection Hup as <-. simpl.
    destruct (N.eqb_spec (RefreshToken._id d) id'); [congruence | reflexivity].
  - destruct (update_first _ _ l) as [l0|]; [|discriminate].
    injection Hup as <-. simpl.
    destruct (RefreshToken._id d =? id'); [reflexivity | by apply IH].
Qed.

Lemma updateOne_other_ids_untouched (id id' : N) t (upsert : bool) l :
  id' <> id ->
  findOne (fun d => RefreshToken._id d =? id') (updateOne id t upsert l)
    = findOne (fun d => RefreshToken._id d =? id') l.
Proof.
  intros Hne. unfold updateOne.
  destruct (update_first _ _ l) as [l'|] eqn:Hup.
  - by apply (update_first_frame id id' t).
  - destruct upsert; [|reflexivity].
    rewrite findOne_app. simpl.
    destruct (N.eqb_spec id id'); [congruence|].
    by destruct (findOne _ l).
Qed.

Lemma updateOne_without_upsert_creates_nothing (id : N) t l :
  (forall d, d ∈ l -> RefreshToken._id d <> id) ->
  updateOne id t false l = l.
Proof.
  intros Habs. unfold updateOne.
  destruct (update_first _ _ l) as [l'|] eqn:Hup; [|reflexivity].
  apply update_first_match in Hup as (d & Hd & Hm).
  apply N.eqb_eq in Hm. by apply Habs in Hd.
Qed.

Lemma update_first_findOne (id : N) t l :
  match findOne (fun d => RefreshToken._id d =? id) l with
  | Some d =>
      exists l', update_first (fun d => RefreshToken._id d =? id) (set_token t) l
                   = Some l'
                 /\ findOne (fun d => RefreshToken._id d =? id) l'
                    = Some (set_token t d)
  | None =>
      update_first (fun d => RefreshToken._id d =? id) (set_token t) l = None
  end.
Proof.
  unfold findOne. induction l as [|d l IH]; simpl; [done|].
  destruct (RefreshToken._id d =? id) eqn:E.
  - eexists. split; [reflexivity|]. simpl. by rewrite E.
  - destruct (find _ l) as [d'|].
    + destruct IH as (l' & -> & Hf). eexists. split; [reflexivity|].
      simpl. by rewrite E.
    + by rewrite IH.
Qed.

(** X26.  Lookup after [updateOne({ _id: id }, { token: t }, { upsert })]:
    the document with that [_id] now has token [t] and is otherwise as
    before; without such a document the lookup finds [{ _id: id, token: t }]
    under [upsert] and nothing otherwise; the lookup of any other [_id] is
    unchanged. *)
Theorem updateOne_lookup (id id' : N) t (upsert : bool) l :
  findOne (fun d => RefreshToken._id d =? id') (updateOne id t upsert l)
    = if decide (id' = id) then
        match findOne (fun d => RefreshToken._id d =? id) l with
        | Some d => Some (set_token t d)
        | None => if upsert then Some (RefreshToken.mk id t None) else None
        end
      else findOne (fun d => RefreshToken._id d =? id') l.
Proof.
  destruct (decide (id' = id)) as [->|Hne];
    [|by apply updateOne_other_ids_untouched].
  unfold updateOne. pose proof (update_first_findOne id t l) as Hspec.
  destruct (findOne _ l) as [d|] eqn:Hfind.
  - destruct Hspec as (l' & -> & Hl'). exact Hl'.
  - rewrite Hspec. destruct upsert; [|exact Hfind].
    rewrite findOne_app, Hfind. simpl. by rewrite N.eqb_refl.
Qed.

Lemma records_of_updateOne (id : N) t (upsert : bool) l :
  records_of id (updateOne id t upsert l)
    = match records_of id l with
      | d :: ds => set_token t d :: ds
      | [] => if upsert then [RefreshToken.mk id t None] else []
      end.
Proof.
  unfold updateOne, records_of.
  induction l as [|d l IH]; simpl.
  - destruct upsert; simpl; [by rewrite N.eqb_refl | done].
  - destruct (RefreshToken._id d =? id) eqn:E; simpl.
    + by rewrite E.
    + destruct (update_first _ _ l) as [l'|]; simpl.
      * by rewrite E.
      * destruct upsert; simpl in *; rewrite E; exact IH.
Qed.

Lemma records_of_updateOne_other (id id' : N) t (upsert : bool) l :
  id' <> id ->
  records_of id' (updateOne id t upsert l) = records_of id' l.
Proof.
  intros Hne. unfold updateOne, records_of.
  assert (Hnew : (id =? id') = false) by (apply N.eqb_neq; congruence).
  induction l as [|d l IH]; simpl.
  - destruct upsert; simpl; [by rewrite Hnew | done].
  - destruct (N.eqb_spec (RefreshToken._id d) id) as [E|E]; simpl.
    + destruct (N.eqb_spec (RefreshToken._id d) id'); [congruence | done].
    + destruct (update_first _ _ l) as [l'|]; simpl.
      * destruct (RefreshToken._id d =? id'); [by f_equal | done].
      * destruct upsert; simpl in *;
          destruct (RefreshToken._id d =? id'); [by f_equal | done | done | done].
Qed.


Lemma deleteOne_unique_match (t : string) l :
  NoDup (RefreshToken.token <$> l) ->
  forall d, d ∈ deleteOne (fun d => bool_decide (Some (RefreshToken.token d) = Some t)) l ->
            RefreshToken.token d <> t.
Proof.
  induction l as [|d0 l IH]; simpl; intros Hnd d Hd; [inversion Hd|].
  apply NoDup_cons in Hnd as [Hnot Hnd].
  case_bool_decide as E.
  - injection E as E. intros Ht. apply Hnot. rewrite E, <- Ht.
    by apply list_elem_of_fmap_2.
  - apply elem_of_cons in Hd as [->|Hd]; [congruence | by apply IH].
Qed.

Lemma deleteOne_absent {A} (filter : A -> bool) (l : list A) :
  (forall d, d ∈ l -> filter d = false) -> deleteOne filter l = l.
Proof.
  induction l as [|d l IH]; intros Hall; simpl; [done|].
  rewrite (Hall d) by left. f_equal. apply IH. intros d' Hd'. apply Hall. by right.
Qed.

Lemma records_of_updateOne_upsert (id : N) t l :
  unique_ids l ->
  exists d, records_of id (updateOne id t true l) = [d]
            /\ RefreshToken.token d = t /\ RefreshToken._id d = id.
Proof.
  intros Hnd.
  pose proof (unique_ids_at_most_one id _ (updateOne_unique id t true l Hnd)) as Hle.
  destruct (updateOne_upsert_lookup id t l) as (d & Hfind & Ht & Hi).
  exists d. split; [|done].
  unfold records_of, findOne in *.
  induction (updateOne id t true l) as [|x k IH]; simpl in *; [discriminate|].
  destruct (RefreshToken._id x =? id) eqn:E.
  - injection Hfind as ->. simpl in Hle.
    destruct (List.filter _ k); [done | simpl in Hle; lia].
  - by apply IH.
Qed.

End Store.

Section SessionPaths.

Context `{Imports}.

Implicit Types (env : Env) (w : World) (req : Request).

Lemma username_free_findOne w u :
  ~ username_in_use w u ->
  findOne (fun d => key_matches (Some u) (User.username d)) (users w) = None.
Proof.
  intros Hfree%username_free_falsy.
  destruct (findOne _ (users w)); [discriminate | reflexivity].
Qed.

(** Login, once the body has passed the schema. *)
Lemma login_after_validation env w req u :
  userLoginSchema (body req) = None ->
  body req !! "username" = Some u ->
  login env w req =
    if fails env FindUser then mkResult w [] (NextCalled (MongoError FindUser))
    else match findOne (fun d => key_matches (Some u) (User.username d)) (users w) with
    | None => mkResult w [] (NextCalled (HttpErrorMesasge 401 "Invalid username"))
    | Some user =>
        match body req !! "password" with
        | None => mkResult w [] (NextCalled IllegalArguments)
        | Some p =>
            if negb (bcrypt_compare_string p (User.password user))
            then mkResult w [] (NextCalled (HttpError 401 "Invalid password"))
            else if fails env UpdateToken
            then mkResult w [] (NextCalled (MongoError UpdateToken))
            else
              let accessToken :=
                signAccessToken (mkPayload (User._id user)) "30m" (now env) in
              let refreshToken :=
                signRefreshToken (mkPayload (User._id user)) "60m" (now env) in
              let w' := mkWorld (users w)
                          (updateOne (User._id user) refreshToken true (tokens w))
                          (nextObjectId w) in
              let cs := [SetCookie "accessToken" accessToken 86400000 true;
                         SetCookie "refreshToken" refreshToken 86400000 true] in
              match userDTO (Some user) with
              | inl err => mkResult w' cs (Rejected err)
              | inr dto => mkResult w' cs (Responded 200 (mkJson (Some dto) true))
              end
        end
    end.
Proof.
  intros Hv Hu. destruct w as [us ts n].
  autounfold with js. rewrite Hv, Hu. simpl.
  repeat (case_match; simplify_eq/=); reflexivity.
Qed.

(** X15.  Login with a username nobody has ends in [next] of
    [{ status: 401, mesasge: "Invalid username" }], the error object whose
    message key is misspelt; nothing is written and no cookie is set. *)
Theorem login_unknown_username env w req u :
  userLoginSchema (body req) = None ->
  body req !! "username" = Some u ->
  fails env FindUser = false ->
  ~ username_in_use w u ->
  login env w req
    = mkResult w [] (NextCalled (HttpErrorMesasge 401 "Invalid username")).
Proof.
  intros Hv Hu Hf Hfree.
  rewrite (login_after_validation env w req u Hv Hu), Hf.
  by rewrite username_free_findOne.
Qed.

(** X16.  Login with a password that [bcrypt.compare] does not match ends in
    [next({ status: 401, message: "Invalid password" })]; nothing is written
    and no cookie is set. *)
Theorem login_wrong_password env w req u p user :
  userLoginSchema (body req) = None ->
  body req !! "username" = Some u ->
  body req !! "password" = Some p ->
  fails env FindUser = false ->
  findOne (fun d => key_matches (Some u) (User.username d)) (users w) = Some user ->
  bcrypt_compare_string p (User.password user) = false ->
  login env w req = mkResult w [] (NextCalled (HttpError 401 "Invalid password")).
Proof.
  intros Hv Hu Hp Hf Hfind Hcmp.
  rewrite (login_after_validation env w req u Hv Hu), Hf, Hfind, Hp, Hcmp.
  reflexivity.
Qed.

(** X17.  A login that passes the schema, finds the user, matches the
    password and meets no failure upserts the refresh token under the user's
    [_id], sets both cookies with [maxAge] 86 400 000 and [httpOnly], and
    answers 200 with [auth: true]; the [users] collection is left as it
    was. *)
Theorem login_success env w req u p user dto :
  userLoginSchema (body req) = None ->
  body req !! "username" = Some u ->
  body req !! "password" = Some p ->
  fails env FindUser = false ->
  fails env UpdateToken = false ->
  findOne (fun d => key_matches (Some u) (User.username d)) (users w) = Some user ->
  bcrypt_compare_string p (User.password user) = true ->
  userDTO (Some user) = inr dto ->
  let accessToken := signAccessToken (mkPayload (User._id user)) "30m" (now env) in
  let refreshToken := signRefreshToken (mkPayload (User._id user)) "60m" (now env) in
  login env w req =
    mkResult
      (mkWorld (users w) (updateOne (User._id user) refreshToken true (tokens w))
               (nextObjectId w))
      [SetCookie "accessToken" accessToken 86400000 true;
       SetCookie "refreshToken" refreshToken 86400000 true]
      (Responded 200 (mkJson (Some dto) true)).
Proof.
  intros Hv Hu Hp Hf1 Hf2 Hfind Hcmp Hdto.
  rewrite (login_after_validation env w req u Hv Hu), Hf1, Hfind, Hp, Hcmp, Hf2.
  simpl. rewrite Hdto. reflexivity.
Qed.

(** X18.  After a login that answered, the user has exactly one session
    record (given distinct [_id]s before) and its token is the value of the
    [refreshToken] cookie that the response sets: a token of an earlier login
    is no longer on record. *)
Theorem login_session_holds_cookie_token env w req status json :
  unique_ids (tokens w) ->
  r_outcome (login env w req) = Responded status json ->
  exists user t d,
    findOne (fun d => key_matches (body req !! "username") (User.username d)) (users w)
      = Some user
    /\ r_cookies (login env w req)
       = [SetCookie "accessToken"
            (signAccessToken (mkPayload (User._id user)) "30m" (now env))
            86400000 true;
          SetCookie "refreshToken" t 86400000 true]
    /\ records_of (User._id user) (tokens (r_world (login env w req))) = [d]
    /\ RefreshToken.token d = t.
Proof.
  intros Hnd.
  destruct (userLoginSchema (body req)) eqn:Hv;
    [autounfold with js; rewrite Hv; discriminate|].
  assert (exists u, body req !! "username" = Some u) as [u Hu].
  { unfold userLoginSchema in Hv. case_match eqn:Hall; [|discriminate].
    rewrite !andb_true_iff in Hall. destruct Hall as [[_ Hreq] _].
    destruct (body req !! "username"); [eauto | discriminate]. }
  rewrite (login_after_validation env w req u Hv Hu), Hu.
  repeat (case_match; simplify_eq/=); try discriminate. intros _.
  match goal with
  | |- context [updateOne ?i ?t true ?l] =>
      destruct (records_of_updateOne_upsert i t l Hnd) as (rec & Hrec & Ht & _)
  end.
  eauto 10.
Qed.

(** Logout. *)
Lemma logout_run env w req :
  logout env w req =
    if fails env DeleteToken
    then mkResult w [] (NextCalled (MongoError DeleteToken))
    else mkResult
           (mkWorld (users w)
              (deleteOne (fun d => key_matches (cookies req !! "refreshToken")
                                     (Some (RefreshToken.token d))) (tokens w))
              (nextObjectId w))
           [ClearCookie "accessToken"; ClearCookie "refreshToken"]
           (Responded 200 (mkJson None false)).
Proof.
  destruct w as [us ts n]. autounfold with js. simpl.
  destruct (fails env DeleteToken); reflexivity.
Qed.

(** X19.  When the tokens on record are pairwise distinct, a logout that
    reaches the store leaves no record holding the presented token. *)
Theorem logout_revokes_token env w req t :
  fails env DeleteToken = false ->
  cookies req !! "refreshToken" = Some t ->
  NoDup (RefreshToken.token <$> tokens w) ->
  forall d, d ∈ tokens (r_world (logout env w req)) -> RefreshToken.token d <> t.
Proof.
  intros Hf Hc Hnd. rewrite logout_run, Hf, Hc. simpl.
  by apply deleteOne_unique_match.
Qed.

(** X20.  Under the same condition a second logout with the same token
    changes nothing: the database after two logouts is the database after
    one. *)
Theorem logout_twice_same_state env1 env2 w req t :
  fails env1 DeleteToken = false ->
  fails env2 DeleteToken = false ->
  cookies req !! "refreshToken" = Some t ->
  NoDup (RefreshToken.token <$> tokens w) ->
  r_world (logout env2 (r_world (logout env1 w req)) req)
    = r_world (logout env1 w req).
Proof.
  intros Hf1 Hf2 Hc Hnd. rewrite !logout_run, Hf1, Hf2, Hc. simpl. f_equal.
  apply deleteOne_absent. intros d Hd.
  apply bool_decide_eq_false. intros [= Ht].
  by apply (deleteOne_unique_match t (tokens w) Hnd d).
Qed.

Lemma logout_unknown_token_changes_nothing env w req t :
  fails env DeleteToken = false ->
  cookies req !! "refreshToken" = Some t ->
  (forall d, d ∈ tokens w -> RefreshToken.token d <> t) ->
  r_world (logout env w req) = w.
Proof.
  intros Hf Hc Habs. rewrite logout_run, Hf, Hc. destruct w as [us ts n]. simpl.
  f_equal. apply deleteOne_absent. intros d Hd.
  apply bool_decide_eq_false. intros [= Ht]. by apply (Habs d).
Qed.

(** Refresh. *)
Lemma refresh_run env w req :
  refresh env w req =
    match verifyRefreshToken (now env) (cookies req !! "refreshToken") with
    | None => mkResult w [] (NextCalled (HttpError 401 "unauthorized"))
    | Some payload =>
        let id := _id payload in
        if fails env UpdateToken
        then mkResult w [] (NextCalled (MongoError UpdateToken))
        else
          let accessToken := signAccessToken (mkPayload id) "30m" (now env) in
          let refreshToken := signRefreshToken (mkPayload id) "60m" (now env) in
          let w' := mkWorld (users w) (updateOne id refreshToken false (tokens w))
                      (nextObjectId w) in
          let cs := [SetCookie "accessToken" accessToken 86400000 true;
                     SetCookie "refreshToken" refreshToken 361440000 true] in
          if fails env FindUser
          then mkResult w' cs (Rejected (MongoError FindUser))
          else match userDTO (findOne (fun d => User._id d =? id) (users w)) with
               | inl err => mkResult w' cs (Rejected err)
               | inr dto => mkResult w' cs (Responded 200 (mkJson (Some dto) true))
               end
    end.
Proof.
  destruct w as [us ts n]. autounfold with js. simpl.
  repeat (case_match; simplify_eq/=); reflexivity.
Qed.

(** X21.  A rejected [deleteOne] makes logout end in [next(error)] without
    clearing the cookies; a rejected [updateOne] makes refresh, for a token
    that verifies, end in [next(error)] without setting cookies.  Nothing is
    written in either case. *)
Theorem token_store_failure_aborts env w req :
  (fails env DeleteToken = true ->
   logout env w req = mkResult w [] (NextCalled (MongoError DeleteToken)))
  /\
  (forall payload,
     verifyRefreshToken (now env) (cookies req !! "refreshToken") = Some payload ->
     fails env UpdateToken = true ->
     refresh env w req = mkResult w [] (NextCalled (MongoError UpdateToken))).
Proof.
  split.
  - intros Hf. by rewrite logout_run, Hf.
  - intros payload Hv Hf. by rewrite refresh_run, Hv, Hf.
Qed.

Lemma refresh_after_update env w req payload :
  verifyRefreshToken (now env) (cookies req !! "refreshToken") = Some payload ->
  fails env UpdateToken = false ->
  tokens (r_world (refresh env w req))
    = updateOne (_id payload)
        (signRefreshToken (mkPayload (_id payload)) "60m" (now env)) false (tokens w)
  /\ r_cookies (refresh env w req)
     = [SetCookie "accessToken"
          (signAccessToken (mkPayload (_id payload)) "30m" (now env)) 86400000 true;
        SetCookie "refreshToken"
          (signRefreshToken (mkPayload (_id payload)) "60m" (now env))
          361440000 true].
Proof.
  intros Hv Hf. rewrite refresh_run, Hv, Hf. simpl.
  destruct (fails env FindUser); [done|]. by destruct (userDTO _).
Qed.

(** X23.  A refresh whose token verifies and whose write is served replaces
    the token of the first session record of its subject by the token it sets
    as cookie, creates no record when there is none, and leaves the records
    of every other [_id] as they were. *)
Theorem refresh_rotates_only_its_subject env w req payload :
  verifyRefreshToken (now env) (cookies req !! "refreshToken") = Some payload ->
  fails env UpdateToken = false ->
  let id := _id payload in
  let refreshToken := signRefreshToken (mkPayload id) "60m" (now env) in
  let after := tokens (r_world (refresh env w req)) in
  records_of id after
    = match records_of id (tokens w) with
      | d :: ds => set_token refreshToken d :: ds
      | [] => []
      end
  /\ (forall id', id' <> id -> records_of id' after = records_of id' (tokens w))
  /\ (r_cookies (refresh env w req)
      = [SetCookie "accessToken"
           (signAccessToken (mkPayload id) "30m" (now env)) 86400000 true;
         SetCookie "refreshToken" refreshToken 361440000 true]).
Proof.
  intros Hv Hf id refreshToken after. subst after.
  destruct (refresh_after_update env w req payload Hv Hf) as [-> ->].
  fold id refreshToken. split; [apply records_of_updateOne|].
  split; [|reflexivity].
  intros id' Hne. by apply records_of_updateOne_other.
Qed.

(** X24.  The user lookup of refresh comes after the rotation and outside
    every [try]: when it rejects, the handler rejects although the session
    record already holds the new token and both cookies are set. *)
Theorem refresh_lookup_failure_after_rotation env w req payload :
  verifyRefreshToken (now env) (cookies req !! "refreshToken") = Some payload ->
  fails env UpdateToken = false ->
  fails env FindUser = true ->
  let accessToken := signAccessToken (mkPayload (_id payload)) "30m" (now env) in
  let refreshToken := signRefreshToken (mkPayload (_id payload)) "60m" (now env) in
  refresh env w req =
    mkResult
      (mkWorld (users w) (updateOne (_id payload) refreshToken false (tokens w))
               (nextObjectId w))
      [SetCookie "accessToken" accessToken 86400000 true;
       SetCookie "refreshToken" refreshToken 361440000 true]
      (Rejected (MongoError FindUser)).
Proof. intros Hv Hf1 Hf2. by rewrite refresh_run, Hv, Hf1, Hf2. Qed.

(** X22.  A refresh with a token that verifies, whose subject has a user
    record, and that meets no failure: the token of the subject's session
    record is replaced ([updateOne] without upsert), both cookies are set,
    the [refreshToken] one with [maxAge] 361 440 000, and the answer is 200
    with [auth: true]. *)
Theorem refresh_success env w req payload user dto :
  verifyRefreshToken (now env) (cookies req !! "refreshToken") = Some payload ->
  fails env UpdateToken = false ->
  fails env FindUser = false ->
  findOne (fun d => User._id d =? _id payload) (users w) = Some user ->
  userDTO (Some user) = inr dto ->
  let accessToken := signAccessToken (mkPayload (_id payload)) "30m" (now env) in
  let refreshToken := signRefreshToken (mkPayload (_id payload)) "60m" (now env) in
  refresh env w req =
    mkResult
      (mkWorld (users w) (updateOne (_id payload) refreshToken false (tokens w))
               (nextObjectId w))
      [SetCookie "accessToken" accessToken 86400000 true;
       SetCookie "refreshToken" refreshToken 361440000 true]
      (Responded 200 (mkJson (Some dto) true)).
Proof.
  intros Hv Hf1 Hf2 Hfind Hdto.
  rewrite refresh_run, Hv, Hf1, Hf2. simpl. by rewrite Hfind, Hdto.
Qed.

End SessionPaths.

Section Cookies.

Context `{Imports}.

(** X25.  The cookie operations of a response are none at all, or the two
    [clearCookie] calls of logout, or [accessToken] followed by
    [refreshToken], both [httpOnly], the first with [maxAge] 86 400 000 and
    the second with 86 400 000 (register, login) or 361 440 000 (refresh). *)
Theorem cookies_set_by_handlers op env w req :
  r_cookies (handle op env w req) = []
  \/ (op = Logout
      /\ r_cookies (handle op env w req)
         = [ClearCookie "accessToken"; ClearCookie "refreshToken"])
  \/ (op <> Logout
      /\ exists accessToken refreshToken,
           r_cookies (handle op env w req)
           = [SetCookie "accessToken" accessToken 86400000 true;
              SetCookie "refreshToken" refreshToken
                (if op is Refresh then 361440000 else 86400000) true]).
Proof.
  destruct op; simpl; run_handler;
    first [ by left
          | right; left; split; reflexivity
          | right; right; split; [discriminate | eauto] ].
Qed.

End Cookies.

Section Passwords.

Lemma length_list_ascii (s : string) :
  length (list_ascii_of_string s) = String.length s.
Proof. induction s as [|c s IH]; simpl; [done | by rewrite IH]. Qed.

Lemma lookahead_special_in_class (c : ascii) :
  is_lookahead_special c = true -> in_password_class c = true ->
  one_of "@.#$!%*?&" c = true.
Proof.
  destruct c as [[] [] [] [] [] [] [] []]; vm_compute; intros; congruence.
Qed.

(** X8.  A password that matches the pattern has 8 to 15 characters, among
    them a lower-case letter, an upper-case letter, a digit and one of
    [@.#$!%*?&]; all its characters are letters, digits or one of those nine.
    The caret, which the fourth lookahead lists, is never accepted. *)
Theorem passwordPattern_accepts_inv (s : string) :
  passwordPattern s = true ->
  let cs := list_ascii_of_string s in
  (8 <= String.length s <= 15)%nat
  /\ (exists c, In c cs /\ is_lower c = true)
  /\ (exists c, In c cs /\ is_upper c = true)
  /\ (exists c, In c cs /\ is_digit c = true)
  /\ (exists c, In c cs /\ one_of "@.#$!%*?&" c = true)
  /\ (forall c, In c cs -> in_password_class c = true)
  /\ ~ In "^"%char cs.
Proof.
  unfold passwordPattern. rewrite !andb_true_iff.
  intros [[[[[[Hl Hu] Hd] Hs] Hall] Hmin] Hmax].
  rewrite forallb_forall in Hall.
  apply existsb_exists in Hl. apply existsb_exists in Hu.
  apply existsb_exists in Hd. apply existsb_exists in Hs.
  apply N.leb_le in Hmin. apply N.leb_le in Hmax.
  rewrite length_list_ascii in Hmin, Hmax.
  repeat split; auto; try lia.
  - destruct Hs as (c & Hc & Hsp). exists c. split; [done|].
    apply lookahead_special_in_class; auto.
  - intros Hin. apply Hall in Hin. discriminate Hin.
Qed.

End Passwords.

Section Usernames.

Context `{Imports}.

(** X6.  Conversely, the registration schema accepts every body made of a
    username of 3 to 50 characters, a name of 1 to 30, a non-empty email that
    Joi accepts and a password that matches the pattern. *)
Theorem userRegisterSchema_accepts (u n e p : string) :
  (3 <= String.length u <= 50)%nat ->
  (1 <= String.length n <= 30)%nat ->
  e <> "" -> isEmail e = true ->
  passwordPattern p = true ->
  userRegisterSchema
    {[ "username" := u; "name" := n; "email" := e; "password" := p ]} = None.
Proof.
  intros [Hu3 Hu50] [Hn1 Hn30] He Hmail Hpat.
  unfold userRegisterSchema, joi_known_keys.
  rewrite bool_decide_eq_true_2.
  2:{ intros k [v Hv]%elem_of_dom. apply elem_of_list_to_set.
      repeat (apply lookup_insert_Some in Hv as [[<- _]|[_ Hv]];
              [repeat constructor|]).
      apply lookup_singleton_Some in Hv as [<- _]. repeat constructor. }
  assert (Hp : p <> "").
  { intros ->. discriminate Hpat. }
  simplify_map_eq. simpl.
  unfold joi_string, any_string. simpl.
  rewrite Hmail, Hpat.
  apply String.eqb_neq in He, Hp. rewrite He, Hp.
  replace (String.eqb u "") with false by (destruct u; [simpl in Hu3; lia | done]).
  replace (String.eqb n "") with false by (destruct n; [simpl in Hn1; lia | done]).
  replace (3 <=? N.of_nat (String.length u)) with true
    by (symmetry; apply N.leb_le; lia).
  replace (N.of_nat (String.length u) <=? 50) with true
    by (symmetry; apply N.leb_le; lia).
  replace (N.of_nat (String.length n) <=? 30) with true
    by (symmetry; apply N.leb_le; lia).
  reflexivity.
Qed.

(** X7.  The registration schema allows usernames of up to 50 characters and
    the login schema of up to 30: a login request whose username has more
    than 30 characters ends in [next] of the validation error before any
    lookup, whatever the database holds. *)
Theorem login_rejects_long_username env w req u :
  body req !! "username" = Some u ->
  (30 < String.length u)%nat ->
  login env w req = mkResult w [] (NextCalled ValidationError).
Proof.
  intros Hu Hlen.
  assert (Hv : userLoginSchema (body req) = Some ValidationError).
  { unfold userLoginSchema. rewrite Hu. simpl. unfold joi_string. simpl.
    replace (N.of_nat (String.length u) <=? 30) with false
      by (symmetry; apply N.leb_gt; lia).
    by rewrite !andb_false_r. }
  autounfold with js. rewrite Hv. reflexivity.
Qed.

End Usernames.

Section UserInvariant.

Context `{Imports}.

Implicit Types (env : Env) (w : World) (req : Request).

Lemma falsy_no_match (f : User.Doc -> bool) (l : list User.Doc) :
  truthy (User._id <$> findOne f l) = false -> forall d, d ∈ l -> f d = false.
Proof.
  unfold truthy, findOne. intros Hf%bool_decide_eq_false.
  induction l as [|x l IH]; intros d Hd; [inversion Hd|].
  simpl in Hf. destruct (f x) eqn:E.
  - exfalso. apply Hf. by eexists.
  - apply elem_of_cons in Hd as [->|Hd]; [exact E | by apply IH].
Qed.

(** The users after a registration: as before, or one more whose username and
    email nobody had. *)
Lemma register_users env w req :
  users (r_world (register env w req)) = users w
  \/ exists u e doc,
       User.username doc = Some u /\ User.email doc = Some e
       /\ (forall d, d ∈ users w -> User.username d <> Some u)
       /\ (forall d, d ∈ users w -> User.email d <> Some e)
       /\ users (r_world (register env w req)) = (users w ++ [doc])%list.
Proof.
  destruct (userRegisterSchema (body req)) eqn:Hv.
  - left. autounfold with js. rewrite Hv. by simpl.
  - destruct (userRegisterSchema_required _ Hv) as (u & e & p & Hu & He & Hp).
    autounfold with js. rewrite Hv, Hu, He, Hp. simpl.
    repeat (case_match; simplify_eq/=); auto; right;
      exists u, e,
        (User.mk (nextObjectId w) (Some u) (body req !! "name") (Some e)
                 (bcrypt_hash_string p 10));
      (split; [reflexivity|]); (split; [reflexivity|]);
      (split; [|split; [|reflexivity]]); intros d Hd Heq;
      match goal with
      | Hf : truthy (User._id <$> findOne (fun d => bool_decide (?f d = _)) _) = false
        |- _ =>
          match type of Heq with
          | f d = _ =>
              apply (falsy_no_match _ _ Hf) in Hd;
              by apply bool_decide_eq_false in Hd
          end
      end.
Qed.

Lemma login_users env w req : users (r_world (login env w req)) = users w.
Proof. run_handler; reflexivity. Qed.

Lemma handle_users op env w req :
  op <> Register -> users (r_world (handle op env w req)) = users w.
Proof.
  destruct op; simpl; intros Hop; [done | apply login_users | |].
  - by rewrite logout_run; destruct (fails env DeleteToken).
  - rewrite refresh_run. simpl. repeat case_match; reflexivity.
Qed.

Lemma NoDup_snoc {A} (l : list A) (x : A) :
  NoDup l -> x ∉ l -> NoDup (l ++ [x]).
Proof.
  intros Hl Hx. apply NoDup_app. split; [done|]. split; [|apply NoDup_singleton].
  intros y Hy ->%list_elem_of_singleton. contradiction.
Qed.

Lemma handle_keeps_users_unique op env w req :
  unique_users w -> unique_users (r_world (handle op env w req)).
Proof.
  intros [Hu He]. unfold unique_users.
  destruct op; try (by rewrite handle_users).
  simpl. destruct (register_users env w req)
    as [->|(u & e & doc & Hdu & Hde & Hfu & Hfe & ->)]; [done|].
  rewrite !fmap_app. simpl. split; apply NoDup_snoc; auto.
  - rewrite Hdu. intros (d & Heq & Hd)%list_elem_of_fmap. by apply (Hfu d).
  - rewrite Hde. intros (d & Heq & Hd)%list_elem_of_fmap. by apply (Hfe d).
Qed.

(** X14.  Served one after the other, the four handlers keep usernames and
    emails unique: if no two users share a username or an email, the same
    holds after any sequence of requests. *)
Theorem users_stay_unique (rs : list (Op * Env * Request)) w :
  unique_users w -> unique_users (handle_all rs w).
Proof.
  revert w. induction rs as [|[[op env] req] rs IH]; intros w Hw; simpl; [done|].
  by apply IH, handle_keeps_users_unique.
Qed.

End UserInvariant.

(** * The router *)

Section RouterProperties.

Import Routes.

Variable decodable : string -> bool.

Lemma dispatch_from_sound (routes : list Route) m segs stack :
  dispatch_from decodable routes m segs = Handled stack ->
  exists r, r ∈ routes
    /\ route_stack r = stack
    /\ handles (route_method r) m = true
    /\ match_segments decodable (pattern (route_path r)) segs = Matched.
Proof.
  induction routes as [|r routes IH]; simpl; [discriminate|].
  destruct (match_segments _ _ segs) eqn:Hm; [| |discriminate].
  - intros (r' & Hin & Hr')%IH. exists r'. split; [by right | done].
  - destruct (handles (route_method r) m) eqn:Hh.
    + intros [= <-]. exists r. split; [left | done].
    + intros (r' & Hin & Hr')%IH. exists r'. split; [by right | done].
Qed.

Lemma dispatch_sound m pathname stack :
  dispatch decodable m pathname = Handled stack ->
  exists r segs, r ∈ router
    /\ request_segments pathname = Some segs
    /\ route_stack r = stack
    /\ handles (route_method r) m = true
    /\ match_segments decodable (pattern (route_path r)) segs = Matched.
Proof.
  unfold dispatch. destruct (request_segments pathname) as [segs|]; [|discriminate].
  intros (r & Hin & Hst & Hh & Hm)%dispatch_from_sound.
  exists r, segs. auto.
Qed.

Ltac each_route H :=
  unfold router in H;
  repeat (apply elem_of_cons in H as [->|H]); [..|by apply elem_of_nil in H].

(** X28.  Whatever the method and the path, the stack the router runs is
    [register], [login] or [refresh] alone, or [auth] followed by one
    handler: logout and every blog and comment handler are reached through
    [auth] only. *)
Theorem every_route_but_three_is_behind_auth m pathname stack :
  dispatch decodable m pathname = Handled stack ->
  stack = [authController_register]
  \/ stack = [authController_login]
  \/ stack = [authController_refresh]
  \/ exists h, stack = [auth; h]
       /\ h <> authController_register /\ h <> authController_login
       /\ h <> authController_refresh /\ h <> auth.
Proof.
  intros (r & segs & Hin & _ & <- & _)%dispatch_sound.
  each_route Hin; simpl; auto;
    repeat right; eexists; repeat split; discriminate.
Qed.

(** X29.  The router runs register, login and logout for [POST] requests
    only, and refresh for [GET] (and [HEAD]) requests only. *)
Theorem auth_routes_methods m pathname stack :
  dispatch decodable m pathname = Handled stack ->
  ((authController_register ∈ stack \/ authController_login ∈ stack
    \/ authController_logout ∈ stack) -> m = POST)
  /\ (authController_refresh ∈ stack -> m = GET \/ m = HEAD).
Proof.
  intros (r & segs & Hin & _ & <- & Hh & _)%dispatch_sound.
  each_route Hin; simpl in *; destruct m; try discriminate Hh;
    split; auto; intros Hmem;
    repeat match goal with
           | H : _ \/ _ |- _ => destruct H
           | H : _ ∈ _ :: _ |- _ => apply elem_of_cons in H as [?|?]; [discriminate|]
           | H : _ ∈ [] |- _ => by apply elem_of_nil in H
           end.
Qed.

Lemma blog_all_dispatch m pathname a b :
  request_segments pathname = Some [a; b] ->
  lowercase a = "blog" ->
  lowercase b = "all" ->
  m = GET \/ m = HEAD ->
  dispatch decodable m pathname = Handled [auth; blogController_getAll].
Proof.
  intros Hsegs Ha Hb Hm. unfold dispatch. rewrite Hsegs.
  unfold router. cbn -[lowercase String.eqb]. rewrite Ha, Hb.
  destruct Hm as [-> | ->]; vm_compute; reflexivity.
Qed.

(** X30.  [/blog/all] is registered before [/blog/:id]: a [GET] for
    [/blog/all], in any letter case and with or without a trailing slash,
    runs [getAll], and [getById] runs only for a non-empty id other than
    [all] that can be decoded. *)
Theorem blog_all_shadows_blog_id m pathname :
  (forall a b,
     request_segments pathname = Some [a; b] ->
     lowercase a = "blog" -> lowercase b = "all" ->
     m = GET \/ m = HEAD ->
     dispatch decodable m pathname = Handled [auth; blogController_getAll])
  /\
  (dispatch decodable m pathname = Handled [auth; blogController_getById] ->
   (m = GET \/ m = HEAD)
   /\ exists a id,
        request_segments pathname = Some [a; id]
        /\ lowercase a = "blog" /\ id <> "" /\ lowercase id <> "all"
        /\ decodable id = true).
Proof.
  split; [intros a b; apply blog_all_dispatch|].
  intros Hd. pose proof Hd as (r & segs & Hin & Hsegs & Hst & Hh & Hm)%dispatch_sound.
  each_route Hin; try discriminate Hst. clear Hst.
  assert (Hmeth : m = GET \/ m = HEAD) by (destruct m; try discriminate Hh; auto).
  split; [exact Hmeth|].
  change (pattern _) with [Lit "blog"; Param "id"] in Hm.
  destruct segs as [|a segs]; [discriminate Hm|].
  cbn -[lowercase String.eqb] in Hm.
  destruct (String.eqb (lowercase "blog") (lowercase a)) eqn:Ha; [|discriminate Hm].
  destruct segs as [|id segs]; [discriminate Hm|].
  cbn -[lowercase String.eqb] in Hm.
  destruct (String.eqb id "") eqn:Hid; [discriminate Hm|].
  destruct segs as [|x segs]; [|discriminate Hm].
  destruct (decodable id) eqn:Hdec; [|discriminate Hm].
  apply String.eqb_eq in Ha. apply String.eqb_neq in Hid.
  exists a, id. repeat split; auto.
  intros Hall.
  rewrite (blog_all_dispatch m pathname a id) in Hd by auto.
  discriminate Hd.
Qed.

End RouterProperties.

(** ** Instances of the further properties *)

Import Cases.

Lemma next_leaves_no_trace_witness :
  r_outcome (@handle Spec.imports Refresh (Spec.up 300) logged_in
               (with_refresh_cookie "forged"))
    = NextCalled (HttpError 401 "unauthorized")
  /\ r_world (@handle Spec.imports Refresh (Spec.up 300) logged_in
                (with_refresh_cookie "forged")) = logged_in
  /\ r_cookies (@handle Spec.imports Refresh (Spec.up 300) logged_in
                  (with_refresh_cookie "forged")) = [].
Proof.
  assert (Hout : r_outcome (@handle Spec.imports Refresh (Spec.up 300) logged_in
                   (with_refresh_cookie "forged"))
                 = NextCalled (HttpError 401 "unauthorized"))
    by (vm_compute; reflexivity).
  split; [exact Hout|].
  exact (@next_leaves_no_trace Spec.imports Refresh _ _ _ _ Hout).
Defined.

Lemma userRegisterSchema_accepts_inv_witness :
  @userRegisterSchema Spec.imports (body alice_registration) = None
  /\ (exists u n e p,
        body alice_registration !! "username" = Some u
        /\ body alice_registration !! "name" = Some n
        /\ body alice_registration !! "email" = Some e
        /\ body alice_registration !! "password" = Some p
        /\ (3 <= String.length u <= 50)%nat
        /\ (1 <= String.length n <= 30)%nat
        /\ Spec.isEmail e = true
        /\ passwordPattern p = true
        /\ (body alice_registration !! "confirmPassword" = None
            \/ body alice_registration !! "confirmPassword" = Some p)).
Proof.
  assert (Hv : @userRegisterSchema Spec.imports (body alice_registration) = None)
    by (vm_compute; reflexivity).
  split; [exact Hv|].
  exact (proj1 (@userRegisterSchema_accepts_inv Spec.imports _ Hv)).
Defined.

Lemma userLoginSchema_accepts_inv_witness :
  userLoginSchema (body alice_login) = None
  /\ (exists u, body alice_login !! "username" = Some u
                /\ (3 <= String.length u <= 30)%nat)
  /\ (forall p, body alice_login !! "password" = Some p -> passwordPattern p = true)
  /\ (forall k, is_Some (body alice_login !! k) -> k = "username" \/ k = "password").
Proof.
  assert (Hv : userLoginSchema (body alice_login) = None) by (vm_compute; reflexivity).
  split; [exact Hv|].
  exact (userLoginSchema_accepts_inv _ Hv).
Defined.

Lemma alice_email_free : ~ email_in_use Spec.empty_world "alice@x.com".
Proof. intros (d & Hd & _). inversion Hd. Qed.

Lemma alice_username_free : ~ username_in_use Spec.empty_world "alice".
Proof. intros (d & Hd & _). inversion Hd. Qed.

Lemma register_success_witness :
  Spec.register (Spec.up 100) Spec.empty_world alice_registration =
    mkResult (mkWorld [alice_doc] [RefreshToken.mk 1 T0 (Some 1)] 2)
      [SetCookie "accessToken" "1.100.1900.34350" 86400000 true;
       SetCookie "refreshToken" T0 86400000 true]
      (Responded 201 (mkJson (Some alice_dto) true)).
Proof.
  apply (@register_success Spec.imports (Spec.up 100) Spec.empty_world
           alice_registration "alice@x.com" "alice" "Passw0rd!"
           [RefreshToken.mk 1 T0 (Some 1)] alice_dto);
    try (vm_compute; reflexivity).
  - exact alice_email_free.
  - exact alice_username_free.
Defined.

Lemma register_store_rejection_witness :
  Spec.register (store_down 100) Spec.empty_world alice_registration =
    mkResult (mkWorld [alice_doc] [] 2) [] (Rejected (MongoError StoreToken)).
Proof.
  apply (@register_store_rejection_orphans_user Spec.imports (store_down 100)
           Spec.empty_world alice_registration "alice@x.com" "alice" "Passw0rd!"
           (MongoError StoreToken));
    try (vm_compute; reflexivity).
  - exact alice_email_free.
  - exact alice_username_free.
Defined.

Lemma register_save_failure_witness :
  fails (failing SaveUser 100) SaveUser = true
  /\ Spec.register (failing SaveUser 100) Spec.empty_world alice_registration
     = mkResult Spec.empty_world [] (NextCalled (MongoError SaveUser)).
Proof.
  split; [reflexivity|].
  apply (@register_save_failure Spec.imports (failing SaveUser 100)
           Spec.empty_world alice_registration "alice@x.com" "alice");
    try (vm_compute; reflexivity).
  - exact alice_email_free.
  - exact alice_username_free.
Defined.

Lemma register_username_query_failure_witness :
  email_in_use registered "alice@x.com"
  /\ Spec.register (failing ExistsUsername 500) registered alice_registration
     = mkResult registered [] (NextCalled (MongoError ExistsUsername)).
Proof.
  split.
  - eexists. split; [apply list_elem_of_here | reflexivity].
  - apply (@register_username_query_failure_masks_conflict Spec.imports);
      vm_compute; reflexivity.
Defined.

Lemma mallory_unknown : ~ username_in_use registered "mallory".
Proof.
  intros (d & Hd & Hu). apply list_elem_of_singleton in Hd. subst d. discriminate Hu.
Qed.

Lemma login_unknown_username_witness :
  ~ username_in_use registered "mallory"
  /\ Spec.login (Spec.up 200) registered mallory_login
     = mkResult registered [] (NextCalled (HttpErrorMesasge 401 "Invalid username")).
Proof.
  split; [exact mallory_unknown|].
  apply (@login_unknown_username Spec.imports (Spec.up 200) registered
           mallory_login "mallory"); try (vm_compute; reflexivity).
  exact mallory_unknown.
Defined.

Lemma login_wrong_password_witness :
  Spec.bcrypt_compare_string "Wr0ng.pass" (User.password alice_doc) = false
  /\ Spec.login (Spec.up 200) registered alice_wrong_password
     = mkResult registered [] (NextCalled (HttpError 401 "Invalid password")).
Proof.
  split; [vm_compute; reflexivity|].
  apply (@login_wrong_password Spec.imports (Spec.up 200) registered
           alice_wrong_password "alice" "Wr0ng.pass" alice_doc);
    vm_compute; reflexivity.
Defined.

Lemma login_success_witness :
  Spec.login (Spec.up 200) registered alice_login =
    mkResult (mkWorld [alice_doc] [RefreshToken.mk 1 T1 (Some 1)] 2)
      [SetCookie "accessToken" "1.200.2000.37350" 86400000 true;
       SetCookie "refreshToken" T1 86400000 true]
      (Responded 200 (mkJson (Some alice_dto) true)).
Proof.
  apply (@login_success Spec.imports (Spec.up 200) registered alice_login
           "alice" "Passw0rd!" alice_doc alice_dto);
    vm_compute; reflexivity.
Defined.

Lemma registered_unique_ids : unique_ids (tokens registered).
Proof. apply NoDup_singleton. Qed.

Lemma logged_in_distinct_tokens : NoDup (RefreshToken.token <$> tokens logged_in).
Proof. apply NoDup_singleton. Qed.

Lemma login_session_witness :
  exists user t d,
    findOne (fun d => @key_matches Spec.imports (body alice_login !! "username")
                        (User.username d)) (users registered) = Some user
    /\ r_cookies (Spec.login (Spec.up 200) registered alice_login)
       = [SetCookie "accessToken"
            (Spec.signAccessToken (mkPayload (User._id user)) "30m" 200)
            86400000 true;
          SetCookie "refreshToken" t 86400000 true]
    /\ records_of (User._id user)
         (tokens (r_world (Spec.login (Spec.up 200) registered alice_login))) = [d]
    /\ RefreshToken.token d = t.
Proof.
  apply (@login_session_holds_cookie_token Spec.imports (Spec.up 200) registered
           alice_login 200 (mkJson (Some alice_dto) true)).
  - exact registered_unique_ids.
  - vm_compute. reflexivity.
Defined.

Lemma logout_revokes_token_witness :
  tokens logged_in = [RefreshToken.mk 1 T1 (Some 1)]
  /\ forall d,
       d ∈ tokens (r_world (Spec.logout (Spec.up 300) logged_in
                              (with_refresh_cookie T1))) ->
       RefreshToken.token d <> T1.
Proof.
  split; [vm_compute; reflexivity|].
  apply (@logout_revokes_token Spec.imports (Spec.up 300) logged_in
           (with_refresh_cookie T1) T1); try reflexivity.
  exact logged_in_distinct_tokens.
Defined.

Lemma logout_twice_same_state_witness :
  r_world (Spec.logout (Spec.up 310)
             (r_world (Spec.logout (Spec.up 300) logged_in (with_refresh_cookie T1)))
             (with_refresh_cookie T1))
    = r_world (Spec.logout (Spec.up 300) logged_in (with_refresh_cookie T1)).
Proof.
  apply (@logout_twice_same_state Spec.imports (Spec.up 300) (Spec.up 310)
           logged_in (with_refresh_cookie T1) T1); try reflexivity.
  exact logged_in_distinct_tokens.
Defined.

Lemma token_store_failure_witness :
  (fails (store_down 300) UpdateToken = true
   /\ Spec.refresh (store_down 300) logged_in (with_refresh_cookie T1)
      = mkResult logged_in [] (NextCalled (MongoError UpdateToken)))
  /\
  (fails (failing DeleteToken 300) DeleteToken = true
   /\ Spec.logout (failing DeleteToken 300) logged_in (with_refresh_cookie T1)
      = mkResult logged_in [] (NextCalled (MongoError DeleteToken))).
Proof.
  split; (split; [reflexivity|]).
  - apply (proj2 (@token_store_failure_aborts Spec.imports (store_down 300)
                    logged_in (with_refresh_cookie T1)) (mkPayload 1));
      vm_compute; reflexivity.
  - apply (proj1 (@token_store_failure_aborts Spec.imports (failing DeleteToken 300)
                    logged_in (with_refresh_cookie T1))).
    reflexivity.
Defined.

Lemma refresh_rotates_witness :
  let after := tokens (r_world (Spec.refresh (Spec.up 300) logged_in
                                   (with_refresh_cookie T1))) in
  records_of 1 (tokens logged_in) = [RefreshToken.mk 1 T1 (Some 1)]
  /\ records_of 1 after = [RefreshToken.mk 1 "1.300.3900.29518" (Some 1)]
  /\ (forall id', id' <> 1 -> records_of id' after = records_of id' (tokens logged_in)).
Proof.
  destruct (@refresh_rotates_only_its_subject Spec.imports (Spec.up 300) logged_in
              (with_refresh_cookie T1) (mkPayload 1))
    as (Hrec & Hframe & _); try (vm_compute; reflexivity).
  split; [vm_compute; reflexivity|]. split; [|exact Hframe].
  etransitivity; [exact Hrec|]. vm_compute. reflexivity.
Defined.

Lemma refresh_lookup_failure_witness :
  Spec.refresh (failing FindUser 300) logged_in (with_refresh_cookie T1) =
    mkResult (mkWorld [alice_doc] [RefreshToken.mk 1 "1.300.3900.29518" (Some 1)] 2)
      [SetCookie "accessToken" "1.300.2100.40350" 86400000 true;
       SetCookie "refreshToken" "1.300.3900.29518" 361440000 true]
      (Rejected (MongoError FindUser)).
Proof.
  apply (@refresh_lookup_failure_after_rotation Spec.imports (failing FindUser 300)
           logged_in (with_refresh_cookie T1) (mkPayload 1));
    vm_compute; reflexivity.
Defined.

Lemma refresh_success_witness :
  Spec.refresh (Spec.up 300) logged_in (with_refresh_cookie T1) =
    mkResult (mkWorld [alice_doc] [RefreshToken.mk 1 "1.300.3900.29518" (Some 1)] 2)
      [SetCookie "accessToken" "1.300.2100.40350" 86400000 true;
       SetCookie "refreshToken" "1.300.3900.29518" 361440000 true]
      (Responded 200 (mkJson (Some alice_dto) true)).
Proof.
  apply (@refresh_success Spec.imports (Spec.up 300) logged_in
           (with_refresh_cookie T1) (mkPayload 1) alice_doc alice_dto);
    vm_compute; reflexivity.
Defined.

Lemma passwordPattern_witness :
  passwordPattern "Passw0rd!" = true
  /\ (8 <= String.length "Passw0rd!" <= 15)%nat
  /\ ~ In "^"%char (list_ascii_of_string "Passw0rd!").
Proof.
  assert (Hp : passwordPattern "Passw0rd!" = true) by reflexivity.
  destruct (passwordPattern_accepts_inv _ Hp) as (Hlen & _ & _ & _ & _ & _ & Hcaret).
  auto.
Defined.

Lemma long_username_registers_witness :
  String.length long_username = 31%nat
  /\ @userRegisterSchema Spec.imports (body long_registration) = None.
Proof.
  split; [reflexivity|].
  apply (@userRegisterSchema_accepts Spec.imports long_username "Long"
           "long@x.com" "Passw0rd!"); try reflexivity; try discriminate.
  - vm_compute. split; apply Nat.leb_le; reflexivity.
  - vm_compute. split; apply Nat.leb_le; reflexivity.
Defined.

Lemma long_username_login_witness :
  (30 < String.length long_username)%nat
  /\ Spec.login (Spec.up 200) registered long_login
     = mkResult registered [] (NextCalled ValidationError).
Proof.
  assert (Hlen : (30 < String.length long_username)%nat)
    by (apply Nat.ltb_lt; reflexivity).
  split; [exact Hlen|].
  apply (@login_rejects_long_username Spec.imports (Spec.up 200) registered
           long_login long_username); [reflexivity | exact Hlen].
Defined.

Lemma users_stay_unique_witness :
  unique_users Spec.empty_world
  /\ unique_users
       (Spec.handle_all
          [(Register, Spec.up 100, alice_registration);
           (Register, Spec.up 110, bob_registration);
           (Login, Spec.up 200, alice_login)]
          Spec.empty_world).
Proof.
  assert (H0 : unique_users Spec.empty_world) by (split; apply NoDup_nil_2).
  split; [exact H0|].
  exact (@users_stay_unique Spec.imports _ _ H0).
Defined.

Section RouterInstances.

Import Routes.

Lemma auth_guard_witness :
  dispatch decodes_all GET "/blog/17" = Handled [auth; blogController_getById]
  /\ dispatch decodes_all DELETE "/comment/17" = Unmatched
  /\ exists h, [auth; blogController_getById] = [auth; h]
       /\ h <> authController_register /\ h <> authController_login
       /\ h <> authController_refresh /\ h <> auth.
Proof.
  assert (Hd : dispatch decodes_all GET "/blog/17"
               = Handled [auth; blogController_getById]) by (vm_compute; reflexivity).
  split; [exact Hd|]. split; [vm_compute; reflexivity|].
  destruct (every_route_but_three_is_behind_auth decodes_all _ _ _ Hd)
    as [Hs|[Hs|[Hs|Hs]]]; try discriminate Hs. exact Hs.
Defined.

Lemma auth_routes_methods_witness :
  dispatch decodes_all GET "/refresh" = Handled [authController_refresh]
  /\ dispatch decodes_all POST "/refresh" = Unmatched
  /\ (authController_refresh ∈ [authController_refresh] -> GET = GET \/ GET = HEAD).
Proof.
  assert (Hd : dispatch decodes_all GET "/refresh" = Handled [authController_refresh])
    by (vm_compute; reflexivity).
  split; [exact Hd|]. split; [vm_compute; reflexivity|].
  exact (proj2 (auth_routes_methods decodes_all _ _ _ Hd)).
Defined.

Lemma blog_all_witness :
  request_segments "/Blog/ALL/" = Some ["Blog"; "ALL"]
  /\ dispatch decodes_all GET "/Blog/ALL/" = Handled [auth; blogController_getAll]
  /\ dispatch decodes_all GET "/blog/allx" = Handled [auth; blogController_getById].
Proof.
  assert (Hs : request_segments "/Blog/ALL/" = Some ["Blog"; "ALL"])
    by (vm_compute; reflexivity).
  split; [exact Hs|]. split; [|vm_compute; reflexivity].
  apply (proj1 (blog_all_shadows_blog_id decodes_all GET "/Blog/ALL/") "Blog" "ALL");
    auto.
Defined.

End RouterInstances.
